(** * Device command server: connection registry and message relay

    A shallow embedding of [main.py], the FastAPI backend that relays
    commands from [POST /send] to devices connected on [/ws/{device_id}].

    The handlers are coroutines.  Between two [await]s a coroutine runs
    alone on the event loop and reads or writes the module globals; at an
    [await] it is suspended and anything else may run.  A handler is
    therefore a tree whose inner nodes are reads and writes of the globals
    and awaited calls on a WebSocket, and whose leaves are a returned value
    or a raised exception. *)

From Stdlib Require Import String Ascii List Bool ZArith Lia SpecFloat.
From ExtLib Require Import Structures.Monad.
Import ListNotations.
Import MonadNotation.
Local Open Scope string_scope.
Local Open Scope list_scope.
Local Open Scope monad_scope.

Set Implicit Arguments.

(** ** Python values *)

(** A [dict] keeps its keys in insertion order and holds each key once. *)
Definition dict (V : Type) : Type := list (string * V).

Section Dict.
Variable V : Type.

(** [d.get(k)] *)
Fixpoint dict_get (k : string) (d : dict V) : option V :=
  match d with
  | [] => None
  | (k', v) :: d' => if String.eqb k k' then Some v else dict_get k d'
  end.

(** [k in d] *)
Definition dict_contains (k : string) (d : dict V) : bool :=
  match dict_get k d with Some _ => true | None => false end.

(** [d[k] = v]: an existing key keeps its place, a new one goes last. *)
Fixpoint dict_setitem (k : string) (v : V) (d : dict V) : dict V :=
  match d with
  | [] => [(k, v)]
  | (k', v') :: d' =>
      if String.eqb k k' then (k, v) :: d' else (k', v') :: dict_setitem k v d'
  end.

(** What [del d[k]] leaves when [k] is a key of [d]. *)
Definition dict_remove (k : string) (d : dict V) : dict V :=
  filter (fun kv => negb (String.eqb k (fst kv))) d.

(** [list(d.keys())] *)
Definition dict_keys (d : dict V) : list string := map fst d.

(** [len(d)] *)
Definition dict_len (d : dict V) : nat := length d.

(** The invariant of a Python dict: no key occurs twice. *)
Definition dict_wf (d : dict V) : Prop := NoDup (dict_keys d).
End Dict.

(** A Python float is an IEEE 754 binary64 number. *)
Definition float : Type := spec_float.

(** The objects [json.loads] returns and [json.dumps] takes. *)
#[warnings="-register-all"]
Inductive value : Type :=
| PyNone
| PyBool (b : bool)
| PyInt (n : Z)
| PyFloat (x : float)
| PyStr (s : string)
| PyList (items : list value)
| PyDict (items : list (string * value)).

(** [type(v).__name__] *)
Definition type_name (v : value) : string :=
  match v with
  | PyNone => "NoneType"
  | PyBool _ => "bool"
  | PyInt _ => "int"
  | PyFloat _ => "float"
  | PyStr _ => "str"
  | PyList _ => "list"
  | PyDict _ => "dict"
  end.

(** [v == s] for a string literal [s]: only an equal [str] is equal. *)
Definition eq_str (v : value) (s : string) : bool :=
  match v with
  | PyStr s' => String.eqb s' s
  | _ => false
  end.

(** ** Exceptions *)

Inductive exn_class : Type :=
| WebSocketDisconnect
| JSONDecodeError
| AttributeError
| KeyError
| TypeError
| ValueError
| RuntimeError
| RecursionError
| CancelledError.

(** An exception object: its class and [str(e)]. *)
Record exn : Type := mk_exn { exn_type : exn_class; exn_str : string }.

(** [isinstance(e, Exception)].  [asyncio.CancelledError] derives from
    [BaseException] only; the other classes derive from [Exception]. *)
Definition is_Exception (e : exn) : bool :=
  match exn_type e with
  | CancelledError => false
  | _ => true
  end.

Definition is_WebSocketDisconnect (e : exn) : bool :=
  match exn_type e with
  | WebSocketDisconnect => true
  | _ => false
  end.

Definition is_JSONDecodeError (e : exn) : bool :=
  match exn_type e with
  | JSONDecodeError => true
  | _ => false
  end.

(** What evaluating an expression gives: its value, or the exception it
    raised. *)
Inductive outcome (A : Type) : Type :=
| Value (a : A)
| Raised (e : exn).
Arguments Raised {A} e.

(** ** Module globals *)

(** A WebSocket object, identified as Python identifies it: by identity. *)
Definition WebSocket : Type := nat.

Inductive level : Type := INFO | WARNING | ERROR.

(** The state shared by all coroutines of the process:
    [active_connections] (main.py line 40), what [logger] has emitted, and
    the reading of the event loop's clock. *)
Record state : Type := mk_state {
  active_connections : dict WebSocket;
  emitted : list (level * string);
  clock : float
}.

Definition with_connections (d : dict WebSocket) (s : state) : state :=
  mk_state d (emitted s) (clock s).

Definition with_record (r : level * string) (s : state) : state :=
  mk_state (active_connections s) (emitted s ++ [r]) (clock s).

(** The state at import time: [active_connections = {}]. *)
Definition initial (t : float) : state := mk_state [] [] t.

(** ** Coroutines *)

(** The awaited methods of a WebSocket. *)
Inductive call : Type :=
| accept (websocket : WebSocket)
| send_text (websocket : WebSocket) (data : string)
| receive_text (websocket : WebSocket).

Definition result (c : call) : Type :=
  match c with
  | receive_text _ => string
  | _ => unit
  end.

(** A coroutine returning an [A].  [Unfinished] stands for a [while True]
    loop cut off after the iterations it was given; nothing catches it and
    no [finally] block runs after it. *)
Inductive task (A : Type) : Type :=
| Return (a : A)
| Raise (e : exn)
| Unfinished
| Get (k : state -> task A)
| Put (s : state) (k : task A)
| Await (c : call) (k : outcome (result c) -> task A).
Arguments Raise {A} e.
Arguments Unfinished {A}.

Fixpoint task_bind {A B : Type} (t : task A) (f : A -> task B) : task B :=
  match t with
  | Return a => f a
  | Raise e => Raise e
  | Unfinished => Unfinished
  | Get k => Get (fun s => task_bind (k s) f)
  | Put s k => Put s (task_bind k f)
  | Await c k => Await c (fun o => task_bind (k o) f)
  end.

#[global] Instance Monad_task : Monad task :=
  {| ret := @Return; bind := @task_bind |}.

(** [try: t  except ...: h]: [h e] is the body of the first clause that
    matches [e], or [None] when no clause does and [e] propagates. *)
Fixpoint try_except {A : Type} (t : task A) (h : exn -> option (task A))
  : task A :=
  match t with
  | Return a => Return a
  | Raise e => match h e with Some t' => t' | None => Raise e end
  | Unfinished => Unfinished
  | Get k => Get (fun s => try_except (k s) h)
  | Put s k => Put s (try_except k h)
  | Await c k => Await c (fun o => try_except (k o) h)
  end.

(** [try: t  finally: fin] *)
Fixpoint try_finally {A : Type} (t : task A) (fin : task unit) : task A :=
  match t with
  | Return a => task_bind fin (fun _ => Return a)
  | Raise e => task_bind fin (fun _ => Raise e)
  | Unfinished => Unfinished
  | Get k => Get (fun s => try_finally (k s) fin)
  | Put s k => Put s (try_finally k fin)
  | Await c k => Await c (fun o => try_finally (k o) fin)
  end.

(** An expression in statement position: its value, or its exception. *)
Definition eval {A : Type} (o : outcome A) : task A :=
  match o with
  | Value a => Return a
  | Raised e => Raise e
  end.

(** [await c] *)
Definition await (c : call) : task (result c) := Await c (@eval _).

(** How an iteration of a loop ends. *)
Inductive ctl : Type := Continue | Break.

(** [while True: body], cut off after [fuel] iterations. *)
Fixpoint while_True (fuel : nat) (body : task ctl) : task unit :=
  match fuel with
  | O => Unfinished
  | S fuel' =>
      c <- body ;;
      match c with
      | Break => Return tt
      | Continue => while_True fuel' body
      end
  end.

(** [logger.info], [logger.warning], [logger.error] *)
Definition logger (l : level) (msg : string) : task unit :=
  Get (fun s => Put (with_record (l, msg) s) (Return tt)).

(** [asyncio.get_event_loop().time()] *)
Definition loop_time : task float := Get (fun s => Return (clock s)).

(** [device_id in active_connections] *)
Definition connections_contains (device_id : string) : task bool :=
  Get (fun s => Return (dict_contains device_id (active_connections s))).

(** [active_connections[device_id]] *)
Definition connections_getitem (device_id : string) : task WebSocket :=
  Get (fun s =>
    match dict_get device_id (active_connections s) with
    | Some websocket => Return websocket
    | None => Raise (mk_exn KeyError device_id)
    end).

(** [active_connections[device_id] = websocket] *)
Definition connections_setitem (device_id : string) (websocket : WebSocket)
  : task unit :=
  Get (fun s =>
    Put (with_connections (dict_setitem device_id websocket (active_connections s)) s)
        (Return tt)).

(** [del active_connections[device_id]] *)
Definition connections_delitem (device_id : string) : task unit :=
  Get (fun s =>
    if dict_contains device_id (active_connections s)
    then Put (with_connections (dict_remove device_id (active_connections s)) s)
             (Return tt)
    else Raise (mk_exn KeyError device_id)).

(** [if device_id in active_connections: del active_connections[device_id]]
    (main.py lines 125-126 and 194-195) *)
Definition remove_connection (device_id : string) : task unit :=
  connected <- connections_contains device_id ;;
  if connected : bool then connections_delitem device_id else ret tt.

(** ** The [json] module and string formatting

    [json.loads] and [json.dumps] belong to the Python library and
    [format] is the text an f-string puts for [{v}]; the handlers are
    written against this interface. *)
Class Runtime : Type := {
  json_loads : string -> outcome value;
  json_dumps : value -> string;
  format : value -> string
}.

(** [message.get(key, default)] *)
Definition value_get (message : value) (key : string) (default : value)
  : outcome value :=
  match message with
  | PyDict d =>
      Value (match dict_get key d with Some v => v | None => default end)
  | _ =>
      Raised (mk_exn AttributeError
                ("'" ++ type_name message ++ "' object has no attribute 'get'"))
  end.

(** ** Pydantic models (main.py lines 47-55) *)

Module SendCommandRequest.
Record t : Type := mk { device_id : string; cmd : string }.
End SendCommandRequest.

Module SendCommandResponse.
Record t : Type := mk { success : bool; message : string; device_id : string }.
End SendCommandResponse.

(** ** Handlers *)

Section Handlers.
Context {rt : Runtime}.

(** [GET /] (main.py lines 66-73) *)
Definition root : task value :=
  Get (fun s =>
    Return (PyDict
      [ ("status", PyStr "online");
        ("active_connections",
           PyInt (Z.of_nat (dict_len (active_connections s))));
        ("devices", PyList (map PyStr (dict_keys (active_connections s)))) ])).

(** [POST /send] (main.py lines 82-132), entered once [verify_api_key]
    has returned. *)
Definition send_command (request : SendCommandRequest.t)
  : task SendCommandResponse.t :=
  let device_id := SendCommandRequest.device_id request in
  let cmd := SendCommandRequest.cmd request in
  logger INFO ("Received command for device " ++ device_id ++ ": " ++ cmd) ;;
  connected <- connections_contains device_id ;;
  if negb connected then
    logger WARNING ("Device " ++ device_id ++ " is not connected") ;;
    ret (SendCommandResponse.mk false
           ("Device " ++ device_id ++ " is not connected") device_id)
  else
    websocket <- connections_getitem device_id ;;
    try_except
      (now <- loop_time ;;
       let command_data :=
         PyDict [("cmd", PyStr cmd); ("timestamp", PyFloat now)] in
       await (send_text websocket (json_dumps command_data)) ;;
       logger INFO ("Command sent to device " ++ device_id ++ ": " ++ cmd) ;;
       ret (SendCommandResponse.mk true
              ("Command '" ++ cmd ++ "' sent to device " ++ device_id)
              device_id))
      (fun e =>
         if is_Exception e then
           Some
             (logger ERROR ("Error sending command to device " ++ device_id
                            ++ ": " ++ exn_str e) ;;
              remove_connection device_id ;;
              ret (SendCommandResponse.mk false
                     ("Error sending command: " ++ exn_str e) device_id))
         else None).

(** The inner [try] of the message loop (main.py lines 163-181). *)
Definition handle_message (device_id data : string) : task unit :=
  try_except
    (message <- eval (json_loads data) ;;
     logger INFO ("Received message from device " ++ device_id ++ ": "
                  ++ format message) ;;
     msg_type <- eval (value_get message "type" (PyStr "response")) ;;
     if eq_str msg_type "response" then
       v <- eval (value_get message "data" (PyStr "")) ;;
       logger INFO ("Device " ++ device_id ++ " response: " ++ format v)
     else if eq_str msg_type "status" then
       v <- eval (value_get message "status" (PyStr "")) ;;
       logger INFO ("Device " ++ device_id ++ " status: " ++ format v)
     else if eq_str msg_type "error" then
       v <- eval (value_get message "error" (PyStr "")) ;;
       logger ERROR ("Device " ++ device_id ++ " error: " ++ format v)
     else ret tt)
    (fun e =>
       if is_JSONDecodeError e then
         Some (logger INFO ("Received plain text from device " ++ device_id
                            ++ ": " ++ data))
       else None).

(** One iteration of [while True] (main.py lines 159-188). *)
Definition iteration (websocket : WebSocket) (device_id : string) : task ctl :=
  try_except
    (data <- await (receive_text websocket) ;;
     handle_message device_id data ;;
     ret Continue)
    (fun e =>
       if is_WebSocketDisconnect e then
         Some (logger INFO ("Device " ++ device_id ++ " disconnected") ;;
               ret Break)
       else if is_Exception e then
         Some (logger ERROR ("Error handling message from device "
                             ++ device_id ++ ": " ++ exn_str e) ;;
               ret Break)
       else None).

(** The [finally] block (main.py lines 192-196). *)
Definition clean_up (device_id : string) : task unit :=
  remove_connection device_id ;;
  logger INFO ("Device " ++ device_id ++ " connection closed").

(** [/ws/{device_id}] (main.py lines 135-196); [fuel] bounds the
    iterations of the message loop. *)
Definition websocket_endpoint (fuel : nat) (websocket : WebSocket)
  (device_id : string) : task unit :=
  await (accept websocket) ;;
  logger INFO ("Device " ++ device_id ++ " connected") ;;
  connections_setitem device_id websocket ;;
  try_finally
    (try_except
       (let welcome_msg :=
          PyDict [ ("type", PyStr "connected");
                   ("message",
                      PyStr ("Device " ++ device_id ++ " connected successfully"));
                   ("device_id", PyStr device_id) ] in
        await (send_text websocket (json_dumps welcome_msg)) ;;
        while_True fuel (iteration websocket device_id))
       (fun e =>
          if is_Exception e then
            Some (logger ERROR ("WebSocket error for device " ++ device_id
                                ++ ": " ++ exn_str e))
          else None))
    (clean_up device_id).
End Handlers.

(** ** Running a coroutine

    The environment answers each awaited call: it gives the call's outcome
    and, because other coroutines run while this one is suspended, a new
    state of the globals; [None] when the call never completes. *)
Definition environment (W : Type) : Type :=
  forall c : call, W -> state -> option (outcome (result c) * W * state).

Inductive status (A : Type) : Type :=
| Finished (a : A)
| Failed (e : exn)
| Blocked (c : call)
| Cut.
Arguments Failed {A} e.
Arguments Blocked {A} c.
Arguments Cut {A}.

Record run_result (W A : Type) : Type := mk_run {
  ended : status A;
  calls : list call;
  world : W;
  globals : state
}.

Section Run.
Variable W : Type.
Variable env : environment W.

Fixpoint run_from {A : Type} (t : task A) (done : list call) (w : W) (s : state)
  : run_result W A :=
  match t with
  | Return a => mk_run (Finished a) done w s
  | Raise e => mk_run (Failed e) done w s
  | Unfinished => mk_run Cut done w s
  | Get k => run_from (k s) done w s
  | Put s' k => run_from k done w s'
  | Await c k =>
      match env c w s with
      | Some (o, w', s') => run_from (k o) (done ++ [c]) w' s'
      | None => mk_run (Blocked c) (done ++ [c]) w s
      end
  end.

Definition run {A : Type} (t : task A) (w : W) (s : state) : run_result W A :=
  run_from t [] w s.
End Run.

(** ** A reference runtime

    A decoder, an encoder and a formatter for a fragment of what the Python
    library handles, to run the handlers on concrete payloads.  The decoder
    reads JSON whose numbers have no fraction or exponent and whose strings
    have no [\u] escape and rejects the rest; the encoder and the formatter
    write a finite float in full positional notation, where CPython writes
    the shortest numeral that reads back as the same float, and write
    strings of printable ASCII characters. *)
Module Reference.
Definition quote : ascii := ascii_of_nat 34.
Definition backslash : ascii := ascii_of_nat 92.

Definition is_ws (c : ascii) : bool :=
  let n := nat_of_ascii c in
  Nat.eqb n 32 || Nat.eqb n 9 || Nat.eqb n 10 || Nat.eqb n 13.

Fixpoint skip_ws (cs : list ascii) : list ascii :=
  match cs with
  | c :: cs' => if is_ws c then skip_ws cs' else cs
  | [] => []
  end.

Fixpoint strip_prefix (p cs : list ascii) : option (list ascii) :=
  match p, cs with
  | [], _ => Some cs
  | a :: p', c :: cs' => if Ascii.eqb a c then strip_prefix p' cs' else None
  | _ :: _, [] => None
  end.

Definition digit (c : ascii) : option Z :=
  let n := nat_of_ascii c in
  if Nat.leb 48 n && Nat.leb n 57 then Some (Z.of_nat (n - 48)) else None.

Fixpoint decode_digits (acc : Z) (cs : list ascii) : Z * list ascii :=
  match cs with
  | c :: cs' =>
      match digit c with
      | Some d => decode_digits (10 * acc + d) cs'
      | None => (acc, cs)
      end
  | [] => (acc, [])
  end.

(** [0|[1-9][0-9]*], not followed by a fraction or an exponent. *)
Definition decode_int (cs : list ascii) : option (Z * list ascii) :=
  match cs with
  | c :: cs' =>
      match digit c with
      | Some d =>
          let (n, rest) := if Z.eqb d 0 then (0%Z, cs') else decode_digits d cs' in
          match rest with
          | c' :: _ =>
              if Ascii.eqb c' "."%char || Ascii.eqb c' "e"%char
                 || Ascii.eqb c' "E"%char
              then None else Some (n, rest)
          | [] => Some (n, rest)
          end
      | None => None
      end
  | [] => None
  end.

Definition unescape (c : ascii) : option ascii :=
  if Ascii.eqb c quote then Some quote
  else if Ascii.eqb c backslash then Some backslash
  else if Ascii.eqb c "/"%char then Some "/"%char
  else if Ascii.eqb c "b"%char then Some (ascii_of_nat 8)
  else if Ascii.eqb c "f"%char then Some (ascii_of_nat 12)
  else if Ascii.eqb c "n"%char then Some (ascii_of_nat 10)
  else if Ascii.eqb c "r"%char then Some (ascii_of_nat 13)
  else if Ascii.eqb c "t"%char then Some (ascii_of_nat 9)
  else None.

(** The rest of a string literal, after its opening quote. *)
Fixpoint decode_string (cs acc : list ascii) : option (string * list ascii) :=
  match cs with
  | [] => None
  | c :: cs' =>
      if Ascii.eqb c quote then Some (string_of_list_ascii (rev acc), cs')
      else if Ascii.eqb c backslash then
        match cs' with
        | e :: cs'' =>
            match unescape e with
            | Some x => decode_string cs'' (x :: acc)
            | None => None
            end
        | [] => None
        end
      else if Nat.ltb (nat_of_ascii c) 32 then None
      else decode_string cs' (c :: acc)
  end.

Definition literals : list (string * value) :=
  [ ("null", PyNone); ("true", PyBool true); ("false", PyBool false);
    ("NaN", PyFloat S754_nan); ("Infinity", PyFloat (S754_infinity false));
    ("-Infinity", PyFloat (S754_infinity true)) ].

Fixpoint decode_literal (ls : list (string * value)) (cs : list ascii)
  : option (value * list ascii) :=
  match ls with
  | [] => None
  | (name, v) :: ls' =>
      match strip_prefix (list_ascii_of_string name) cs with
      | Some rest => Some (v, rest)
      | None => decode_literal ls' cs
      end
  end.

Definition decode_scalar (cs : list ascii) : option (value * list ascii) :=
  match decode_literal literals cs with
  | Some r => Some r
  | None =>
      match cs with
      | c :: cs' =>
          if Ascii.eqb c quote then
            match decode_string cs' [] with
            | Some (s, rest) => Some (PyStr s, rest)
            | None => None
            end
          else if Ascii.eqb c "-"%char then
            match decode_int cs' with
            | Some (n, rest) => Some (PyInt (- n), rest)
            | None => None
            end
          else
            match decode_int cs with
            | Some (n, rest) => Some (PyInt n, rest)
            | None => None
            end
      | [] => None
      end
  end.

(** Where the decoder is: before a value, before an item of an array, or
    before a member of an object. *)
Inductive position : Type :=
| a_value
| an_item (seen : list value)
| a_member (seen : dict value).

Fixpoint decode (fuel : nat) (p : position) (cs : list ascii)
  : option (value * list ascii) :=
  match fuel with
  | O => None
  | S fuel' =>
      match p with
      | a_value =>
          match skip_ws cs with
          | c :: cs1 =>
              if Ascii.eqb c "{"%char then
                match skip_ws cs1 with
                | c' :: cs2 =>
                    if Ascii.eqb c' "}"%char then Some (PyDict [], cs2)
                    else decode fuel' (a_member []) (c' :: cs2)
                | [] => None
                end
              else if Ascii.eqb c "["%char then
                match skip_ws cs1 with
                | c' :: cs2 =>
                    if Ascii.eqb c' "]"%char then Some (PyList [], cs2)
                    else decode fuel' (an_item []) (c' :: cs2)
                | [] => None
                end
              else decode_scalar (c :: cs1)
          | [] => None
          end
      | an_item seen =>
          match decode fuel' a_value cs with
          | Some (v, cs1) =>
              match skip_ws cs1 with
              | c :: cs2 =>
                  if Ascii.eqb c ","%char
                  then decode fuel' (an_item (seen ++ [v])) cs2
                  else if Ascii.eqb c "]"%char
                  then Some (PyList (seen ++ [v]), cs2)
                  else None
              | [] => None
              end
          | None => None
          end
      | a_member seen =>
          match skip_ws cs with
          | c :: cs1 =>
              if Ascii.eqb c quote then
                match decode_string cs1 [] with
                | Some (k, cs2) =>
                    match skip_ws cs2 with
                    | c' :: cs3 =>
                        if Ascii.eqb c' ":"%char then
                          match decode fuel' a_value cs3 with
                          | Some (v, cs4) =>
                              match skip_ws cs4 with
                              | c'' :: cs5 =>
                                  if Ascii.eqb c'' ","%char
                                  then decode fuel'
                                         (a_member (dict_setitem k v seen)) cs5
                                  else if Ascii.eqb c'' "}"%char
                                  then Some (PyDict (dict_setitem k v seen), cs5)
                                  else None
                              | [] => None
                              end
                          | None => None
                          end
                        else None
                    | [] => None
                    end
                | None => None
                end
              else None
          | [] => None
          end
      end
  end.

Definition loads (data : string) : outcome value :=
  let cs := list_ascii_of_string data in
  match decode (S (2 * length cs)) a_value cs with
  | Some (v, rest) =>
      match skip_ws rest with
      | [] => Value v
      | _ :: _ => Raised (mk_exn JSONDecodeError "Extra data")
      end
  | None => Raised (mk_exn JSONDecodeError "Expecting value")
  end.
End Reference.

Module Printer.
Import Reference.

Fixpoint join (sep : string) (parts : list string) : string :=
  match parts with
  | [] => ""
  | [p] => p
  | p :: ps => p ++ sep ++ join sep ps
  end.

Definition digit_char (d : Z) : ascii := ascii_of_nat (48 + Z.to_nat d).

(** The decimal digits of [n], most significant first; [fuel] bounds
    their number. *)
Fixpoint digits_of (fuel : nat) (n : Z) (acc : list ascii) : list ascii :=
  match fuel with
  | O => acc
  | S fuel' =>
      let acc' := digit_char (n mod 10) :: acc in
      if Z.ltb n 10 then acc' else digits_of fuel' (n / 10) acc'
  end.

Definition natural (n : Z) : list ascii :=
  digits_of (S (Z.to_nat (Z.log2 n))) n [].

Definition integer (n : Z) : string :=
  if Z.ltb n 0 then "-" ++ string_of_list_ascii (natural (- n))
  else string_of_list_ascii (natural n).

Fixpoint drop_zeros (rev_digits : list ascii) : list ascii :=
  match rev_digits with
  | c :: cs => if Ascii.eqb c "0"%char then drop_zeros cs else rev_digits
  | [] => []
  end.

(** [m * 2^e] written out in full. *)
Definition positional (m : positive) (e : Z) : string :=
  match e with
  | Zneg k =>
      let places := Pos.to_nat k in
      let ds := natural (Zpos m * 5 ^ Zpos k) in
      let ds := repeat "0"%char (S places - length ds) ++ ds in
      let whole := firstn (length ds - places) ds in
      let part := rev (drop_zeros (rev (skipn (length ds - places) ds))) in
      string_of_list_ascii whole ++ "."
      ++ string_of_list_ascii (match part with [] => ["0"%char] | _ => part end)
  | _ => integer (Zpos m * 2 ^ e) ++ ".0"
  end.

Definition number (inf nan : string) (x : float) : string :=
  match x with
  | S754_zero s => if s then "-0.0" else "0.0"
  | S754_infinity s => if s then "-" ++ inf else inf
  | S754_nan => nan
  | S754_finite s m e => (if s then "-" else "") ++ positional m e
  end.

Definition hex_char (n : nat) : ascii :=
  ascii_of_nat (if Nat.ltb n 10 then 48 + n else 87 + n).

Definition escape (c : ascii) : string :=
  let n := nat_of_ascii c in
  if Ascii.eqb c quote then String backslash (String quote "")
  else if Ascii.eqb c backslash then String backslash (String backslash "")
  else if Nat.eqb n 10 then String backslash "n"
  else if Nat.eqb n 13 then String backslash "r"
  else if Nat.eqb n 9 then String backslash "t"
  else if Nat.eqb n 8 then String backslash "b"
  else if Nat.eqb n 12 then String backslash "f"
  else if Nat.ltb n 32 then
    String backslash ("u00" ++ String (hex_char (n / 16))
                                (String (hex_char (n mod 16)) ""))
  else String c "".

Definition quoted (s : string) : string :=
  String quote (String.concat "" (map escape (list_ascii_of_string s)))
  ++ String quote "".

(** [json.dumps(v)] with the default separators. *)
Fixpoint dumps (v : value) : string :=
  match v with
  | PyNone => "null"
  | PyBool b => if b then "true" else "false"
  | PyInt n => integer n
  | PyFloat x => number "Infinity" "NaN" x
  | PyStr s => quoted s
  | PyList items => "[" ++ join ", " (map dumps items) ++ "]"
  | PyDict items =>
      "{" ++ join ", "
               (map (fun kv : string * value => let (k, x) := kv in (quoted k ++ ": " ++ dumps x)%string)
                    items)
      ++ "}"
  end.

(** [repr(v)] *)
Fixpoint repr (v : value) : string :=
  match v with
  | PyNone => "None"
  | PyBool b => if b then "True" else "False"
  | PyInt n => integer n
  | PyFloat x => number "inf" "nan" x
  | PyStr s => "'" ++ s ++ "'"
  | PyList items => "[" ++ join ", " (map repr items) ++ "]"
  | PyDict items =>
      "{" ++ join ", "
               (map (fun kv : string * value => let (k, x) := kv in ("'" ++ k ++ "': " ++ repr x)%string)
                    items)
      ++ "}"
  end.

(** [str(v)], which an f-string puts for [{v}]. *)
Definition str (v : value) : string :=
  match v with
  | PyStr s => s
  | _ => repr v
  end.
End Printer.

#[global] Instance reference_runtime : Runtime :=
  {| json_loads := Reference.loads;
     json_dumps := Printer.dumps;
     format := Printer.str |}.

(** ** The registry operations of the design

    The design speaks of [register], [deregister], [lookup] and [snapshot];
    the code performs them in line on [active_connections]. *)

(** An environment in which nothing else happens: no awaited call is ever
    answered.  It runs the code between two [await]s. *)
Definition nobody : environment unit := fun _ _ _ => None.

(** The globals after [t], and how [t] ended, with nothing interleaved. *)
Definition exec {A : Type} (t : task A) (s : state) : state :=
  globals (run nobody t tt s).

Definition ending {A : Type} (t : task A) (s : state) : status A :=
  ended (run nobody t tt s).

(** [register(id, session)]: main.py line 146. *)
Definition register (device_id : string) (session : WebSocket) : task unit :=
  connections_setitem device_id session.

(** [deregister(id, session)]: what a terminating session runs (lines
    194-195) and what the dispatcher runs after a failed write (lines
    125-126).  The deletion looks at the identifier alone. *)
Definition deregister (device_id : string) (session : WebSocket) : task unit :=
  remove_connection device_id.

(** [lookup(id)]: the test and the subscript of lines 98 and 106. *)
Definition lookup (device_id : string) (s : state) : option WebSocket :=
  dict_get device_id (active_connections s).

(** A history of registrations and deregistrations. *)
Inductive operation : Type :=
| Register (device_id : string) (session : WebSocket)
| Deregister (device_id : string) (session : WebSocket).

Definition perform (op : operation) : task unit :=
  match op with
  | Register device_id session => register device_id session
  | Deregister device_id session => deregister device_id session
  end.

Definition replay (history : list operation) (s : state) : state :=
  fold_left (fun s' op => exec (perform op) s') history s.

Definition registers (device_id : string) (op : operation) : bool :=
  match op with
  | Register device_id' _ => String.eqb device_id device_id'
  | Deregister _ _ => false
  end.

Definition never_registered (device_id : string) (history : list operation)
  : Prop :=
  forallb (fun op => negb (registers device_id op)) history = true.

(** Whether an inbound event ends the session it is delivered to: a read
    that raises does; so does a text that [json.loads] decodes to anything
    but an object, and a text on which it raises anything but
    [JSONDecodeError]. *)
Definition ends_session {rt : Runtime} (o : outcome string) : bool :=
  match o with
  | Raised _ => true
  | Value data =>
      match json_loads data with
      | Value (PyDict _) => false
      | Value _ => true
      | Raised e => negb (is_JSONDecodeError e)
      end
  end.

(** ** Environments *)

(** A reading of the event loop's clock: 0.1875 s. *)
Definition t0 : float := S754_finite false 3 (-4).

(** A device whose connection is accepted, whose channel takes every write,
    and which sends the texts of its script, then stays silent. *)
Definition device : environment (list (outcome string)) :=
  fun c inbox s =>
    match c as c0 return option (outcome (result c0) * list (outcome string) * state)
    with
    | accept _ => Some (Value tt, inbox, s)
    | send_text _ _ => Some (Value tt, inbox, s)
    | receive_text _ =>
        match inbox with
        | [] => None
        | o :: inbox' => Some (o, inbox', s)
        end
    end.

(** What the globals become when a device connects on [websocket] as
    [device_id] and its session reaches the message loop. *)
Definition connects {rt : Runtime} (websocket : WebSocket) (device_id : string)
  (s : state) : state :=
  globals (run device (websocket_endpoint 1 websocket device_id) [] s).

(** A session whose read raises [e], after [others] ran. *)
Definition closing_after (others : state -> state) (e : exn) : environment unit :=
  fun c w s =>
    match c as c0 return option (outcome (result c0) * unit * state) with
    | accept _ => Some (Value tt, w, s)
    | send_text _ _ => Some (Value tt, w, s)
    | receive_text _ => Some (Raised e, w, others s)
    end.

(** A channel on which a write raises [e], after [others] ran. *)
Definition failing_write_after (others : state -> state) (e : exn)
  : environment unit :=
  fun c w s =>
    match c as c0 return option (outcome (result c0) * unit * state) with
    | accept _ => Some (Value tt, w, s)
    | send_text _ _ => Some (Raised e, w, others s)
    | receive_text _ => None
    end.

(** A connection whose handshake raises [e]. *)
Definition refused (e : exn) : environment unit :=
  fun c w s =>
    match c as c0 return option (outcome (result c0) * unit * state) with
    | accept _ => Some (Raised e, w, s)
    | send_text _ _ => Some (Value tt, w, s)
    | receive_text _ => None
    end.

(** ** The credential check and the status routes *)

(** What a dependency or a route gives FastAPI: a value, or an
    [HTTPException], which FastAPI turns into the error reply. *)
Inductive http_outcome (A : Type) : Type :=
| Passed (a : A)
| HTTPException (status_code : nat) (detail : string).
Arguments HTTPException {A} status_code detail.

(** [API_KEY = os.getenv("API_KEY", ...)] (main.py line 43); [getenv] is
    the environment of the process. *)
Definition API_KEY (getenv : string -> option string) : string :=
  match getenv "API_KEY" with
  | Some v => v
  | None => "your-secret-api-key-change-in-production"
  end.

(** [verify_api_key] (main.py lines 59-63) *)
Definition verify_api_key (getenv : string -> option string)
  (x_api_key : string) : http_outcome string :=
  if negb (String.eqb x_api_key (API_KEY getenv))
  then HTTPException 401 "Invalid API key"
  else Passed x_api_key.

(** [GET /health] (main.py lines 76-79) *)
Definition health : task value :=
  Return (PyDict [("status", PyStr "healthy")]).

(** The route [POST /send] (main.py lines 82-86): FastAPI resolves
    [Depends(verify_api_key)] on the [x-api-key] header first and calls the
    body of [send_command] only when the dependency returned. *)
Definition send_route {rt : Runtime} (getenv : string -> option string)
  (x_api_key : string) (request : SendCommandRequest.t)
  : task (http_outcome SendCommandResponse.t) :=
  match verify_api_key getenv x_api_key with
  | HTTPException status_code detail => ret (HTTPException status_code detail)
  | Passed _ => response <- send_command request ;; ret (Passed response)
  end.

(** ** What a coroutine does not do *)

(** [t] reaches no [await]. *)
Fixpoint await_free {A : Type} (t : task A) : Prop :=
  match t with
  | Return _ | Raise _ | Unfinished => True
  | Get k => forall s, await_free (k s)
  | Put _ k => await_free k
  | Await _ _ => False
  end.

(** The coroutine has ended, by returning or by raising. *)
Definition over {A : Type} (st : status A) : bool :=
  match st with
  | Finished _ | Failed _ => true
  | Blocked _ | Cut => false
  end.

(** * Properties *)

(** ** Dictionaries *)

Section DictFacts.
Variable V : Type.
Implicit Types (d : dict V) (k : string) (v : V).

Lemma dict_get_setitem_same d k v :
  dict_get k (dict_setitem k v d) = Some v.
Proof.
  induction d as [|[k' v'] d IH]; simpl.
  - now rewrite String.eqb_refl.
  - destruct (String.eqb k k') eqn:E; simpl.
    + now rewrite String.eqb_refl.
    + now rewrite E.
Qed.

Lemma dict_get_setitem_other d k k' v :
  k <> k' -> dict_get k' (dict_setitem k v d) = dict_get k' d.
Proof.
  intros Hne.
  assert (Hk : String.eqb k' k = false)
    by (apply String.eqb_neq; congruence).
  induction d as [|[k0 v0] d IH]; simpl.
  - now rewrite Hk.
  - destruct (String.eqb k k0) eqn:E; simpl.
    + apply String.eqb_eq in E; subst k0. now rewrite Hk.
    + now rewrite IH.
Qed.

Lemma dict_get_remove_same d k : dict_get k (dict_remove k d) = None.
Proof.
  induction d as [|[k' v'] d IH]; simpl; [reflexivity|].
  destruct (String.eqb k k') eqn:E; simpl; [exact IH|].
  now rewrite E.
Qed.

Lemma dict_get_remove_other d k k' :
  k <> k' -> dict_get k' (dict_remove k d) = dict_get k' d.
Proof.
  intros Hne.
  induction d as [|[k0 v0] d IH]; simpl; [reflexivity|].
  destruct (String.eqb k k0) eqn:E; simpl.
  - apply String.eqb_eq in E; subst k0.
    assert (Hk : String.eqb k' k = false)
      by (apply String.eqb_neq; congruence).
    now rewrite Hk.
  - now rewrite IH.
Qed.

Lemma dict_remove_absent d k : dict_get k d = None -> dict_remove k d = d.
Proof.
  induction d as [|[k' v'] d IH]; simpl; [reflexivity|].
  destruct (String.eqb k k') eqn:E; [discriminate|].
  intros H. simpl. now rewrite IH.
Qed.

Lemma dict_remove_not_contained d k :
  dict_contains k d = false -> dict_remove k d = d.
Proof.
  unfold dict_contains. intros H. apply dict_remove_absent.
  now destruct (dict_get k d).
Qed.

Lemma dict_remove_idempotent d k :
  dict_remove k (dict_remove k d) = dict_remove k d.
Proof. apply dict_remove_absent, dict_get_remove_same. Qed.

Lemma dict_contains_get d k :
  dict_contains k d = true <-> dict_get k d <> None.
Proof.
  unfold dict_contains. destruct (dict_get k d); split; congruence.
Qed.

Lemma dict_keys_get d k : In k (dict_keys d) <-> dict_get k d <> None.
Proof.
  induction d as [|[k' v'] d IH]; simpl.
  - split; [tauto | congruence].
  - destruct (String.eqb k k') eqn:E.
    + apply String.eqb_eq in E. split; [congruence | intros _; left; congruence].
    + apply String.eqb_neq in E. rewrite <- IH.
      split; [intros [H|H]; [congruence | exact H] | tauto].
Qed.

Lemma dict_keys_setitem_absent d k v :
  dict_get k d = None -> dict_keys (dict_setitem k v d) = dict_keys d ++ [k].
Proof.
  induction d as [|[k' v'] d IH]; simpl; [reflexivity|].
  destruct (String.eqb k k') eqn:E; [discriminate|].
  intros H. simpl. now rewrite IH.
Qed.

Lemma dict_keys_setitem_present d k v :
  dict_get k d <> None -> dict_keys (dict_setitem k v d) = dict_keys d.
Proof.
  induction d as [|[k' v'] d IH]; simpl; [congruence|].
  destruct (String.eqb k k') eqn:E; simpl.
  - apply String.eqb_eq in E. now subst.
  - intros H. now rewrite IH.
Qed.

Lemma dict_wf_empty : dict_wf (@nil (string * V)).
Proof. constructor. Qed.

Lemma dict_wf_setitem d k v : dict_wf d -> dict_wf (dict_setitem k v d).
Proof.
  unfold dict_wf. intros Hwf.
  destruct (dict_get k d) eqn:E.
  - rewrite dict_keys_setitem_present; [exact Hwf | congruence].
  - rewrite dict_keys_setitem_absent by exact E.
    apply NoDup_app; [exact Hwf | repeat constructor; simpl; tauto |].
    intros x Hx [<-|[]]. apply dict_keys_get in Hx. congruence.
Qed.

Lemma dict_wf_remove d k : dict_wf d -> dict_wf (dict_remove k d).
Proof.
  unfold dict_wf, dict_remove, dict_keys.
  induction d as [|[k' v'] d IH]; simpl; [trivial|].
  intros Hwf. inversion Hwf as [|? ? Hnotin Hrest]; subst.
  destruct (String.eqb k k'); simpl; [now apply IH|].
  constructor; [|now apply IH].
  intros Hin. apply Hnotin.
  apply in_map_iff in Hin. destruct Hin as [kv [Hk Hkv]].
  apply filter_In in Hkv. apply in_map_iff. exists kv. tauto.
Qed.
End DictFacts.

(** ** Running a sequence *)

Lemma run_from_bind (W : Type) (env : environment W) (A B : Type)
  (t : task A) (f : A -> task B) done w s :
  run_from env (task_bind t f) done w s
  = let r := run_from env t done w s in
    match ended r with
    | Finished a => run_from env (f a) (calls r) (world r) (globals r)
    | Failed e => mk_run (Failed e) (calls r) (world r) (globals r)
    | Blocked c => mk_run (Blocked c) (calls r) (world r) (globals r)
    | Cut => mk_run Cut (calls r) (world r) (globals r)
    end.
Proof.
  revert done w s.
  induction t as [a|e| |k IH|s' k IH|c k IH]; intros done w s; simpl;
    try reflexivity.
  - apply IH.
  - apply IH.
  - destruct (env c w s) as [[[o w'] s']|]; [apply IH | reflexivity].
Qed.

Lemma run_from_try_except (W : Type) (env : environment W) (A : Type)
  (t : task A) (h : exn -> option (task A)) done w s :
  run_from env (try_except t h) done w s
  = let r := run_from env t done w s in
    match ended r with
    | Failed e =>
        match h e with
        | Some t' => run_from env t' (calls r) (world r) (globals r)
        | None => r
        end
    | _ => r
    end.
Proof.
  revert done w s.
  induction t as [a|e| |k IH|s' k IH|c k IH]; intros done w s; simpl;
    try reflexivity.
  - now destruct (h e).
  - apply IH.
  - apply IH.
  - destruct (env c w s) as [[[o w'] s']|]; [apply IH | reflexivity].
Qed.

Lemma run_from_try_finally (W : Type) (env : environment W) (A : Type)
  (t : task A) (fin : task unit) done w s :
  run_from env (try_finally t fin) done w s
  = let r := run_from env t done w s in
    match ended r with
    | Finished a =>
        run_from env (fin ;; Return a) (calls r) (world r) (globals r)
    | Failed e =>
        run_from env (fin ;; Raise e) (calls r) (world r) (globals r)
    | _ => r
    end.
Proof.
  revert done w s.
  induction t as [a|e| |k IH|s' k IH|c k IH]; intros done w s; simpl;
    try reflexivity.
  - apply IH.
  - apply IH.
  - destruct (env c w s) as [[[o w'] s']|]; [apply IH | reflexivity].
Qed.

Lemma run_from_prefix (W : Type) (env : environment W) (A : Type)
  (t : task A) done w s :
  run_from env t done w s
  = mk_run (ended (run env t w s)) (done ++ calls (run env t w s))
      (world (run env t w s)) (globals (run env t w s)).
Proof.
  unfold run. revert done w s.
  induction t as [a|e| |k IH|s' k IH|c k IH]; intros done w s; simpl;
    try (now rewrite app_nil_r).
  - apply IH.
  - apply IH.
  - destruct (env c w s) as [[[o w'] s']|]; [|reflexivity].
    rewrite (IH o (done ++ [c])), (IH o [c]). simpl.
    now rewrite <- app_assoc.
Qed.

Lemma exec_seq (A B : Type) (t : task A) (u : task B) (a : A) s :
  ending t s = Finished a -> exec (t ;; u) s = exec u (exec t s).
Proof.
  unfold ending, exec, run. intros H. simpl.
  rewrite run_from_bind. simpl. rewrite H.
  destruct (run_from nobody t [] tt s) as [e cs [] g]. simpl.
  clear H. revert cs g. induction u as [b|e'| |k IH|s' k IH|c k IH];
    intros cs g; simpl; try reflexivity.
  - apply IH.
  - apply IH.
Qed.

(** ** The registry *)

Lemma exec_register s device_id session :
  exec (register device_id session) s
  = with_connections
      (dict_setitem device_id session (active_connections s)) s.
Proof. reflexivity. Qed.

Lemma exec_deregister_present s device_id session :
  lookup device_id s <> None ->
  exec (deregister device_id session) s
  = with_connections (dict_remove device_id (active_connections s)) s.
Proof.
  intros H. apply dict_contains_get in H.
  unfold exec, deregister, remove_connection, run. simpl.
  rewrite H. simpl. now rewrite H.
Qed.

Lemma exec_deregister_absent s device_id session :
  lookup device_id s = None -> exec (deregister device_id session) s = s.
Proof.
  unfold lookup. intros H.
  unfold exec, deregister, remove_connection, run, dict_contains. simpl.
  unfold dict_contains. now rewrite H.
Qed.

Lemma ending_deregister s device_id session :
  ending (deregister device_id session) s = Finished tt.
Proof.
  unfold ending, deregister, remove_connection, run. simpl.
  destruct (dict_contains device_id (active_connections s)) eqn:E; simpl;
    [now rewrite E | reflexivity].
Qed.

Lemma lookup_deregister s device_id session :
  lookup device_id (exec (deregister device_id session) s) = None.
Proof.
  destruct (lookup device_id s) eqn:E.
  - rewrite exec_deregister_present by congruence.
    apply dict_get_remove_same.
  - now rewrite exec_deregister_absent.
Qed.

Lemma lookup_register_other s device_id device_id' session :
  device_id <> device_id' ->
  lookup device_id' (exec (register device_id session) s) = lookup device_id' s.
Proof. intros H. rewrite exec_register. now apply dict_get_setitem_other. Qed.

Lemma lookup_deregister_other s device_id device_id' session :
  device_id <> device_id' ->
  lookup device_id' (exec (deregister device_id session) s) = lookup device_id' s.
Proof.
  intros H. destruct (lookup device_id s) eqn:E.
  - rewrite exec_deregister_present by congruence.
    now apply dict_get_remove_other.
  - now rewrite exec_deregister_absent.
Qed.

Lemma replay_never_registered history device_id s :
  never_registered device_id history ->
  lookup device_id s = None ->
  lookup device_id (replay history s) = None.
Proof.
  unfold never_registered, replay.
  revert s.
  induction history as [|op history IH]; intros s Hnever Hs; cbn [fold_left].
  - exact Hs.
  - cbn [forallb] in Hnever. apply andb_true_iff in Hnever.
    destruct Hnever as [Hop Hrest].
    apply IH; [exact Hrest|].
    destruct op as [id' session | id' session]; cbn [perform registers] in *.
    + apply negb_true_iff, String.eqb_neq in Hop.
      rewrite lookup_register_other by congruence. exact Hs.
    + destruct (String.eqb id' device_id) eqn:E.
      * apply String.eqb_eq in E. subst. apply lookup_deregister.
      * apply String.eqb_neq in E. now rewrite lookup_deregister_other.
Qed.

(** Every handler step keeps [active_connections] a dict. *)
Lemma replay_wf history s :
  dict_wf (active_connections s) ->
  dict_wf (active_connections (replay history s)).
Proof.
  unfold replay. revert s.
  induction history as [|op history IH]; intros s Hwf; cbn [fold_left];
    [exact Hwf|].
  apply IH. destruct op as [id session | id session]; cbn [perform].
  - rewrite exec_register. now apply dict_wf_setitem.
  - destruct (lookup id s) eqn:E.
    + rewrite exec_deregister_present by congruence. now apply dict_wf_remove.
    + now rewrite exec_deregister_absent.
Qed.

(** C7: [lookup(id)] right after [register(id, session)] returns exactly
    [session], whatever the registry held before; and an identifier that no
    registration of the history names is not found: [lookup(id)] returns
    none. *)
Theorem register_lookup_roundtrip
  (s : state) (history : list operation) (t : float)
  (device_id : string) (session : WebSocket) :
  lookup device_id (exec (register device_id session) s) = Some session
  /\ (never_registered device_id history ->
      lookup device_id (replay history (initial t)) = None).
Proof.
  split.
  - rewrite exec_register. apply dict_get_setitem_same.
  - intros Hnever. now apply replay_never_registered.
Qed.

Lemma register_lookup_roundtrip_witness :
  lookup "pi-1"
    (exec (register "pi-1" 7) (replay [Register "pi-1" 3] (initial S754_nan)))
  = Some 7
  /\ lookup "pi-99"
       (replay [Register "pi-1" 3; Deregister "pi-1" 3; Register "pi-2" 4]
          (initial S754_nan))
     = None.
Proof.
  split.
  - apply (register_lookup_roundtrip
             (replay [Register "pi-1" 3] (initial S754_nan)) []
             S754_nan "pi-1" 7).
  - apply (register_lookup_roundtrip
             (initial S754_nan)
             [Register "pi-1" 3; Deregister "pi-1" 3; Register "pi-2" 4]
             S754_nan "pi-99" 0).
    reflexivity.
Defined.

(** C8: [deregister(id, session)] twice in a row leaves the globals as one
    call leaves them, and the second call, which finds the mapping absent,
    returns normally. *)
Theorem deregister_idempotent (s : state) (device_id : string)
  (session : WebSocket) :
  exec (deregister device_id session ;; deregister device_id session) s
  = exec (deregister device_id session) s
  /\ ending (deregister device_id session)
       (exec (deregister device_id session) s)
     = Finished tt
  /\ exec (deregister device_id session) (exec (deregister device_id session) s)
     = exec (deregister device_id session) s.
Proof.
  assert (Hagain :
    exec (deregister device_id session) (exec (deregister device_id session) s)
    = exec (deregister device_id session) s)
    by apply exec_deregister_absent, lookup_deregister.
  split; [|split; [apply ending_deregister | exact Hagain]].
  erewrite exec_seq by apply ending_deregister.
  exact Hagain.
Qed.

(** C9: the status handler reports the registry as it is: the count is the
    number of registered identifiers and the list holds exactly the
    registered identifiers, each once; the handler changes nothing. *)
Theorem status_snapshot_consistent (s : state) :
  dict_wf (active_connections s) ->
  exists devices : list string,
    ending root s
    = Finished
        (PyDict [ ("status", PyStr "online");
                  ("active_connections", PyInt (Z.of_nat (length devices)));
                  ("devices", PyList (map PyStr devices)) ])
    /\ exec root s = s
    /\ NoDup devices
    /\ forall device_id : string,
         In device_id devices <-> lookup device_id s <> None.
Proof.
  intros Hwf. exists (dict_keys (active_connections s)).
  split; [|split; [reflexivity | split; [exact Hwf|]]].
  - unfold ending, root, run, dict_len, dict_keys. simpl.
    now rewrite length_map.
  - intros device_id. apply dict_keys_get.
Qed.

Lemma status_snapshot_consistent_witness :
  exists devices : list string,
    ending root (mk_state [("pi-1", 1); ("pi-2", 2)] [] S754_nan)
    = Finished
        (PyDict [ ("status", PyStr "online");
                  ("active_connections", PyInt (Z.of_nat (length devices)));
                  ("devices", PyList (map PyStr devices)) ])
    /\ exec root (mk_state [("pi-1", 1); ("pi-2", 2)] [] S754_nan)
       = mk_state [("pi-1", 1); ("pi-2", 2)] [] S754_nan
    /\ NoDup devices
    /\ forall device_id : string,
         In device_id devices
         <-> lookup device_id (mk_state [("pi-1", 1); ("pi-2", 2)] [] S754_nan)
             <> None.
Proof.
  apply (status_snapshot_consistent
           (mk_state [("pi-1", 1); ("pi-2", 2)] [] S754_nan)).
  unfold dict_wf. simpl.
  repeat constructor; simpl; intuition discriminate.
Defined.

(** ** The dispatcher *)

Local Open Scope string_scope.

Section Dispatcher.
Context {rt : Runtime}.
Variable W : Type.
Variable env : environment W.

Ltac step_run := unfold run; cbn -[append json_dumps].

(** C6: for an identifier that is not registered, the dispatcher returns
    [success=False] with a message saying that the device is not
    connected; it raises nothing, awaits nothing, and leaves the registry
    as it was. *)
Theorem dispatch_unknown_device (w : W) (s : state)
  (request : SendCommandRequest.t) :
  let device_id := SendCommandRequest.device_id request in
  let cmd := SendCommandRequest.cmd request in
  lookup device_id s = None ->
  run env (send_command request) w s
  = mk_run
      (Finished
         (SendCommandResponse.mk false
            ("Device " ++ device_id ++ " is not connected") device_id))
      [] w
      (with_record (WARNING, "Device " ++ device_id ++ " is not connected")
         (with_record
            (INFO, "Received command for device " ++ device_id ++ ": " ++ cmd)
            s))
  /\ active_connections (globals (run env (send_command request) w s))
     = active_connections s.
Proof.
  intros device_id cmd H. unfold lookup in H.
  unfold send_command. step_run. unfold dict_contains.
  fold device_id. rewrite H. step_run. split; reflexivity.
Qed.

(** C4: for a registered session whose channel takes the write, the
    dispatcher returns [success=True] and makes exactly one awaited call,
    the write on that session of the envelope holding the command string
    and, as timestamp, the float read from the event loop's clock. *)
Theorem dispatch_delivers (w w' : W) (s s' : state)
  (request : SendCommandRequest.t) (websocket : WebSocket) :
  let device_id := SendCommandRequest.device_id request in
  let cmd := SendCommandRequest.cmd request in
  let payload :=
    json_dumps (PyDict [("cmd", PyStr cmd); ("timestamp", PyFloat (clock s))]) in
  lookup device_id s = Some websocket ->
  env (send_text websocket payload) w
    (with_record
       (INFO, "Received command for device " ++ device_id ++ ": " ++ cmd) s)
  = Some (Value tt, w', s') ->
  run env (send_command request) w s
  = mk_run
      (Finished
         (SendCommandResponse.mk true
            ("Command '" ++ cmd ++ "' sent to device " ++ device_id)
            device_id))
      [send_text websocket payload] w'
      (with_record
         (INFO, "Command sent to device " ++ device_id ++ ": " ++ cmd) s').
Proof.
  intros device_id cmd payload H Hsend. unfold lookup in H.
  unfold send_command. step_run. unfold dict_contains.
  fold device_id. rewrite H. step_run. rewrite H. step_run.
  fold cmd. fold payload. rewrite Hsend. reflexivity.
Qed.

(** What the dispatcher does when its write raises an [Exception]: one
    awaited call, a structured failure, and the entry of the identifier
    deleted from the registry as the write left it. *)
Lemma dispatch_after_failed_write (w w' : W) (s s' : state)
  (request : SendCommandRequest.t) (websocket : WebSocket) (e : exn) :
  let device_id := SendCommandRequest.device_id request in
  let cmd := SendCommandRequest.cmd request in
  let payload :=
    json_dumps (PyDict [("cmd", PyStr cmd); ("timestamp", PyFloat (clock s))]) in
  lookup device_id s = Some websocket ->
  env (send_text websocket payload) w
    (with_record
       (INFO, "Received command for device " ++ device_id ++ ": " ++ cmd) s)
  = Some (Raised e, w', s') ->
  is_Exception e = true ->
  run env (send_command request) w s
  = mk_run
      (Finished
         (SendCommandResponse.mk false
            ("Error sending command: " ++ exn_str e) device_id))
      [send_text websocket payload] w'
      (with_connections (dict_remove device_id (active_connections s'))
         (with_record
            (ERROR, "Error sending command to device " ++ device_id ++ ": "
                    ++ exn_str e) s')).
Proof.
  intros device_id cmd payload H Hsend He. unfold lookup in H.
  unfold send_command. step_run. unfold dict_contains.
  fold device_id. rewrite H. step_run. rewrite H. step_run.
  fold cmd. fold payload. rewrite Hsend. step_run. rewrite He. step_run.
  destruct (dict_get device_id (active_connections s')) eqn:E; step_run.
  - unfold dict_contains. rewrite E. reflexivity.
  - rewrite (dict_remove_absent _ _ E). unfold with_connections. reflexivity.
Qed.

(** C5: when the single write of a dispatch to a registered identifier
    raises an [Exception], the dispatcher returns [success=False] to its
    caller instead of raising, after that one write attempt, and a lookup
    of the identifier afterwards finds nothing, whatever happened to the
    registry while the write was pending. *)
Theorem dispatch_write_failure (w w' : W) (s s' : state)
  (request : SendCommandRequest.t) (websocket : WebSocket) (e : exn) :
  let device_id := SendCommandRequest.device_id request in
  let cmd := SendCommandRequest.cmd request in
  let payload :=
    json_dumps (PyDict [("cmd", PyStr cmd); ("timestamp", PyFloat (clock s))]) in
  lookup device_id s = Some websocket ->
  env (send_text websocket payload) w
    (with_record
       (INFO, "Received command for device " ++ device_id ++ ": " ++ cmd) s)
  = Some (Raised e, w', s') ->
  is_Exception e = true ->
  ended (run env (send_command request) w s)
  = Finished
      (SendCommandResponse.mk false
         ("Error sending command: " ++ exn_str e) device_id)
  /\ calls (run env (send_command request) w s)
     = [send_text websocket payload]
  /\ lookup device_id (globals (run env (send_command request) w s)) = None.
Proof.
  intros device_id cmd payload H Hsend He.
  rewrite (dispatch_after_failed_write _ H Hsend He).
  repeat split. apply dict_get_remove_same.
Qed.

(** C3, as the code has it: when the write of a dispatch raises an
    [Exception] and the identifier has meanwhile been registered again by
    a newer session, the dispatcher's cleanup deletes that newer
    session's entry: the deletion goes by the identifier, not by the
    session.  The entries of the other identifiers stay as they were. *)
Theorem dispatch_cleanup_removes_newer_session (w w' : W) (s s' : state)
  (request : SendCommandRequest.t) (websocket newer : WebSocket) (e : exn) :
  let device_id := SendCommandRequest.device_id request in
  let cmd := SendCommandRequest.cmd request in
  let payload :=
    json_dumps (PyDict [("cmd", PyStr cmd); ("timestamp", PyFloat (clock s))]) in
  lookup device_id s = Some websocket ->
  env (send_text websocket payload) w
    (with_record
       (INFO, "Received command for device " ++ device_id ++ ": " ++ cmd) s)
  = Some (Raised e, w', s') ->
  is_Exception e = true ->
  lookup device_id s' = Some newer ->
  newer <> websocket ->
  lookup device_id (globals (run env (send_command request) w s)) = None
  /\ forall other : string,
       other <> device_id ->
       lookup other (globals (run env (send_command request) w s))
       = lookup other s'.
Proof.
  intros device_id cmd payload H Hsend He _ _.
  rewrite (dispatch_after_failed_write _ H Hsend He).
  split.
  - apply dict_get_remove_same.
  - intros other Hother. apply dict_get_remove_other.
    intros Heq. apply Hother. symmetry. exact Heq.
Qed.
End Dispatcher.

Lemma dispatch_unknown_device_witness :
  run device (send_command (SendCommandRequest.mk "pi-99" "reboot")) []
    (connects 1 "pi-1" (initial t0))
  = mk_run
      (Finished
         (SendCommandResponse.mk false "Device pi-99 is not connected" "pi-99"))
      [] []
      (with_record (WARNING, "Device pi-99 is not connected")
         (with_record (INFO, "Received command for device pi-99: reboot")
            (connects 1 "pi-1" (initial t0))))
  /\ active_connections
       (globals
          (run device (send_command (SendCommandRequest.mk "pi-99" "reboot")) []
             (connects 1 "pi-1" (initial t0))))
     = active_connections (connects 1 "pi-1" (initial t0)).
Proof.
  apply (@dispatch_unknown_device reference_runtime _ device []
           (connects 1 "pi-1" (initial t0))
           (SendCommandRequest.mk "pi-99" "reboot")).
  reflexivity.
Defined.

Lemma dispatch_delivers_witness :
  run device (send_command (SendCommandRequest.mk "pi-1" "reboot")) []
    (connects 1 "pi-1" (initial t0))
  = mk_run
      (Finished
         (SendCommandResponse.mk true "Command 'reboot' sent to device pi-1"
            "pi-1"))
      [send_text 1
         (json_dumps
            (PyDict [("cmd", PyStr "reboot"); ("timestamp", PyFloat t0)]))]
      []
      (with_record (INFO, "Command sent to device pi-1: reboot")
         (with_record (INFO, "Received command for device pi-1: reboot")
            (connects 1 "pi-1" (initial t0)))).
Proof.
  apply (@dispatch_delivers reference_runtime _ device [] []
           (connects 1 "pi-1" (initial t0))
           (with_record (INFO, "Received command for device pi-1: reboot")
              (connects 1 "pi-1" (initial t0)))
           (SendCommandRequest.mk "pi-1" "reboot") 1).
  - reflexivity.
  - reflexivity.
Defined.

Lemma dispatch_write_failure_witness :
  ended
    (run (failing_write_after (fun s => s) (mk_exn RuntimeError "closed"))
       (send_command (SendCommandRequest.mk "pi-1" "reboot")) tt
       (connects 1 "pi-1" (initial t0)))
  = Finished
      (SendCommandResponse.mk false "Error sending command: closed" "pi-1")
  /\ calls
       (run (failing_write_after (fun s => s) (mk_exn RuntimeError "closed"))
          (send_command (SendCommandRequest.mk "pi-1" "reboot")) tt
          (connects 1 "pi-1" (initial t0)))
     = [send_text 1
          (json_dumps
             (PyDict [("cmd", PyStr "reboot"); ("timestamp", PyFloat t0)]))]
  /\ lookup "pi-1"
       (globals
          (run (failing_write_after (fun s => s) (mk_exn RuntimeError "closed"))
             (send_command (SendCommandRequest.mk "pi-1" "reboot")) tt
             (connects 1 "pi-1" (initial t0))))
     = None.
Proof.
  apply (@dispatch_write_failure reference_runtime _
           (failing_write_after (fun s => s) (mk_exn RuntimeError "closed"))
           tt tt
           (connects 1 "pi-1" (initial t0))
           (with_record (INFO, "Received command for device pi-1: reboot")
              (connects 1 "pi-1" (initial t0)))
           (SendCommandRequest.mk "pi-1" "reboot") 1
           (mk_exn RuntimeError "closed")).
  - reflexivity.
  - reflexivity.
  - reflexivity.
Defined.

(** C3 fails on the code.  Session 1 is registered as pi-1; a dispatch to
    pi-1 starts its write on session 1; while the write is pending the
    device reconnects and session 2 takes the entry of pi-1; the write
    raises.  The dispatcher then deletes the entry of session 2. *)
Lemma dispatch_cleanup_counterexample :
  lookup "pi-1" (connects 1 "pi-1" (initial t0)) = Some 1
  /\ lookup "pi-1"
       (connects 2 "pi-1"
          (with_record (INFO, "Received command for device pi-1: reboot")
             (connects 1 "pi-1" (initial t0))))
     = Some 2
  /\ calls
       (run (failing_write_after (connects 2 "pi-1")
               (mk_exn RuntimeError "closed"))
          (send_command (SendCommandRequest.mk "pi-1" "reboot")) tt
          (connects 1 "pi-1" (initial t0)))
     = [send_text 1
          (json_dumps
             (PyDict [("cmd", PyStr "reboot"); ("timestamp", PyFloat t0)]))]
  /\ lookup "pi-1"
       (globals
          (run (failing_write_after (connects 2 "pi-1")
                  (mk_exn RuntimeError "closed"))
             (send_command (SendCommandRequest.mk "pi-1" "reboot")) tt
             (connects 1 "pi-1" (initial t0))))
     <> Some 2.
Proof. repeat split. vm_compute. discriminate. Qed.

Lemma dispatch_cleanup_removes_newer_session_witness :
  lookup "pi-1"
    (globals
       (run (failing_write_after (connects 2 "pi-1")
               (mk_exn RuntimeError "closed"))
          (send_command (SendCommandRequest.mk "pi-1" "reboot")) tt
          (connects 1 "pi-1" (initial t0))))
  = None
  /\ forall other : string,
       other <> "pi-1" ->
       lookup other
         (globals
            (run (failing_write_after (connects 2 "pi-1")
                    (mk_exn RuntimeError "closed"))
               (send_command (SendCommandRequest.mk "pi-1" "reboot")) tt
               (connects 1 "pi-1" (initial t0))))
       = lookup other
           (connects 2 "pi-1"
              (with_record (INFO, "Received command for device pi-1: reboot")
                 (connects 1 "pi-1" (initial t0)))).
Proof.
  apply (@dispatch_cleanup_removes_newer_session reference_runtime _
           (failing_write_after (connects 2 "pi-1")
              (mk_exn RuntimeError "closed"))
           tt tt
           (connects 1 "pi-1" (initial t0))
           (connects 2 "pi-1"
              (with_record (INFO, "Received command for device pi-1: reboot")
                 (connects 1 "pi-1" (initial t0))))
           (SendCommandRequest.mk "pi-1" "reboot") 1 2
           (mk_exn RuntimeError "closed")).
  - reflexivity.
  - reflexivity.
  - reflexivity.
  - reflexivity.
  - discriminate.
Defined.

(** ** Device sessions *)

Section Session.
Context {rt : Runtime}.
Variable W : Type.
Variable env : environment W.

Ltac step_run :=
  unfold run; cbn -[append json_dumps json_loads format dict_contains dict_remove].

(** A text that [json.loads] rejects with [JSONDecodeError] is logged as
    plain text and the loop goes on. *)
Lemma iteration_undecodable_continues (w w' : W) (s s' : state)
  (websocket : WebSocket) (device_id data : string) (e : exn) :
  env (receive_text websocket) w s = Some (Value data, w', s') ->
  json_loads data = Raised e ->
  is_JSONDecodeError e = true ->
  run env (iteration websocket device_id) w s
  = mk_run (Finished Continue) [receive_text websocket] w'
      (with_record
         (INFO, "Received plain text from device " ++ device_id ++ ": " ++ data)
         s').
Proof.
  intros Hrecv Hloads He. unfold iteration, handle_message. step_run.
  rewrite Hrecv. step_run. rewrite Hloads. step_run. rewrite He.
  reflexivity.
Qed.

(** A text that decodes to a JSON object never ends the loop. *)
Lemma iteration_object_continues (w w' : W) (s s' : state)
  (websocket : WebSocket) (device_id data : string) (d : dict value) :
  env (receive_text websocket) w s = Some (Value data, w', s') ->
  json_loads data = Value (PyDict d) ->
  ended (run env (iteration websocket device_id) w s) = Finished Continue
  /\ active_connections (globals (run env (iteration websocket device_id) w s))
     = active_connections s'.
Proof.
  intros Hrecv Hloads. unfold iteration, handle_message. step_run.
  rewrite Hrecv. step_run. rewrite Hloads. step_run.
  destruct (dict_get "type" d) as [msg_type|]; step_run.
  - destruct (eq_str msg_type "response"); step_run; [split; reflexivity|].
    destruct (eq_str msg_type "status"); step_run; [split; reflexivity|].
    destruct (eq_str msg_type "error"); step_run; split; reflexivity.
  - split; reflexivity.
Qed.

(** A text that decodes to anything but a JSON object ends the loop:
    [message.get] raises [AttributeError], which the catch-all clause of
    the iteration answers with [break]. *)
Lemma iteration_non_object_breaks (w w' : W) (s s' : state)
  (websocket : WebSocket) (device_id data : string) (v : value) :
  env (receive_text websocket) w s = Some (Value data, w', s') ->
  json_loads data = Value v ->
  (forall d, v <> PyDict d) ->
  run env (iteration websocket device_id) w s
  = mk_run (Finished Break) [receive_text websocket] w'
      (with_record
         (ERROR, "Error handling message from device " ++ device_id ++ ": "
                 ++ "'" ++ type_name v ++ "' object has no attribute 'get'")
         (with_record
            (INFO, "Received message from device " ++ device_id ++ ": "
                   ++ format v)
            s')).
Proof.
  intros Hrecv Hloads Hv. unfold iteration, handle_message. step_run.
  rewrite Hrecv. step_run. rewrite Hloads. step_run.
  destruct v; try reflexivity. now destruct (Hv items).
Qed.

(** A read that raises an [Exception] ends the loop. *)
Lemma iteration_read_error_breaks (w w' : W) (s s' : state)
  (websocket : WebSocket) (device_id : string) (e : exn) :
  env (receive_text websocket) w s = Some (Raised e, w', s') ->
  is_Exception e = true ->
  run env (iteration websocket device_id) w s
  = mk_run (Finished Break) [receive_text websocket] w'
      (with_record
         (if is_WebSocketDisconnect e
          then (INFO, "Device " ++ device_id ++ " disconnected")
          else (ERROR, "Error handling message from device " ++ device_id
                       ++ ": " ++ exn_str e))
         s').
Proof.
  intros Hrecv He. unfold iteration. step_run. rewrite Hrecv. step_run.
  destruct (is_WebSocketDisconnect e); [reflexivity|].
  rewrite He. reflexivity.
Qed.

(** C10: a message that decodes to a JSON object without a type field
    takes the response branch: after the record of its receipt, the
    handler logs the response record with the message's data field (the
    empty string when there is none), and it returns normally. *)
Theorem untyped_message_is_response (w : W) (s : state)
  (device_id data : string) (d : dict value) :
  json_loads data = Value (PyDict d) ->
  dict_get "type" d = None ->
  run env (handle_message device_id data) w s
  = mk_run (Finished tt) [] w
      (with_record
         (INFO, "Device " ++ device_id ++ " response: "
                ++ format (match dict_get "data" d with
                           | Some v => v
                           | None => PyStr ""
                           end))
         (with_record
            (INFO, "Received message from device " ++ device_id ++ ": "
                   ++ format (PyDict d))
            s)).
Proof.
  intros Hloads Htype. unfold handle_message. step_run.
  rewrite Hloads. step_run. rewrite Htype. reflexivity.
Qed.

(** A message whose type is a string other than the three the handler
    knows leaves no record but that of its receipt. *)
Lemma unrecognized_type_is_ignored (w : W) (s : state)
  (device_id data msg_type : string) (d : dict value) :
  json_loads data = Value (PyDict d) ->
  dict_get "type" d = Some (PyStr msg_type) ->
  msg_type <> "response" -> msg_type <> "status" -> msg_type <> "error" ->
  run env (handle_message device_id data) w s
  = mk_run (Finished tt) [] w
      (with_record
         (INFO, "Received message from device " ++ device_id ++ ": "
                ++ format (PyDict d))
         s).
Proof.
  intros Hloads Htype H1 H2 H3. unfold handle_message. step_run.
  rewrite Hloads. step_run. rewrite Htype.
  apply String.eqb_neq in H1, H2, H3.
  cbn -[append format String.eqb]. rewrite H1.
  cbn -[append format String.eqb]. rewrite H2.
  cbn -[append format String.eqb]. rewrite H3.
  reflexivity.
Qed.

(** When the first read of a session raises an [Exception], the handler
    returns and the entry of its identifier is deleted from the registry
    as the read left it, whichever session that entry holds. *)
Lemma session_end_removes_entry (fuel : nat) (w w1 w2 w3 : W)
  (s s1 s2 s3 : state) (websocket : WebSocket) (device_id : string)
  (e : exn) :
  env (accept websocket) w s = Some (Value tt, w1, s1) ->
  env (send_text websocket
         (json_dumps
            (PyDict [ ("type", PyStr "connected");
                      ("message",
                         PyStr ("Device " ++ device_id
                                ++ " connected successfully"));
                      ("device_id", PyStr device_id) ])))
      w1
      (with_connections
         (dict_setitem device_id websocket
            (active_connections
               (with_record (INFO, "Device " ++ device_id ++ " connected") s1)))
         (with_record (INFO, "Device " ++ device_id ++ " connected") s1))
  = Some (Value tt, w2, s2) ->
  env (receive_text websocket) w2 s2 = Some (Raised e, w3, s3) ->
  is_Exception e = true ->
  ended (run env (websocket_endpoint (S fuel) websocket device_id) w s)
  = Finished tt
  /\ active_connections
       (globals (run env (websocket_endpoint (S fuel) websocket device_id) w s))
     = dict_remove device_id (active_connections s3).
Proof.
  intros Haccept Hsend Hrecv He.
  unfold websocket_endpoint, iteration. step_run.
  rewrite Haccept. step_run.
  cbn -[append json_dumps json_loads format] in Hsend.
  rewrite Hsend. step_run. rewrite Hrecv.
  step_run.
  destruct (is_WebSocketDisconnect e); [|rewrite He]; step_run;
    (destruct (dict_contains device_id (active_connections s3)) eqn:E;
     step_run;
     [ unfold connections_delitem; step_run; rewrite E; split; reflexivity
     | split; [reflexivity | now rewrite dict_remove_not_contained] ]).
Qed.
End Session.

(** ** The message loop over a script of inbound events *)

Section MessageLoop.
Context {rt : Runtime}.
Variable websocket : WebSocket.
Variable device_id : string.

Ltac step_run :=
  unfold run; cbn -[append json_dumps json_loads format dict_contains dict_remove].

Lemma iteration_on_silence s :
  run device (iteration websocket device_id) [] s
  = mk_run (Blocked (receive_text websocket)) [receive_text websocket] [] s.
Proof. reflexivity. Qed.

(** An event that does not end the session leaves the loop going, with
    the registry as it was. *)
Lemma iteration_on_harmless_event o inbox s :
  ends_session o = false ->
  ended (run device (iteration websocket device_id) (o :: inbox) s)
  = Finished Continue
  /\ world (run device (iteration websocket device_id) (o :: inbox) s) = inbox
  /\ active_connections
       (globals (run device (iteration websocket device_id) (o :: inbox) s))
     = active_connections s.
Proof.
  unfold ends_session. destruct o as [data|e]; [|discriminate].
  destruct (json_loads data) as [v|e] eqn:Hloads.
  - destruct v; try discriminate. intros _.
    destruct (@iteration_object_continues rt _ device (Value data :: inbox)
                inbox s s websocket device_id data items eq_refl Hloads)
      as [Hended Hconn].
    split; [exact Hended | split; [|exact Hconn]].
    unfold iteration, handle_message. step_run. rewrite Hloads. step_run.
    destruct (dict_get "type" items) as [msg_type|]; step_run; [|reflexivity].
    destruct (eq_str msg_type "response"); step_run; [reflexivity|].
    destruct (eq_str msg_type "status"); step_run; [reflexivity|].
    destruct (eq_str msg_type "error"); reflexivity.
  - intros He. apply negb_false_iff in He.
    rewrite (@iteration_undecodable_continues rt _ device
               (Value data :: inbox) inbox s s websocket device_id data e
               eq_refl Hloads He).
    repeat split.
Qed.

(** An event that ends the session: the iteration breaks out of the loop,
    or lets an exception through that is no [Exception]; the registry is
    as it was. *)
Lemma iteration_on_fatal_event o inbox s :
  ends_session o = true ->
  (ended (run device (iteration websocket device_id) (o :: inbox) s)
   = Finished Break
   \/ exists e,
        ended (run device (iteration websocket device_id) (o :: inbox) s)
        = Failed e
        /\ is_Exception e = false)
  /\ active_connections
       (globals (run device (iteration websocket device_id) (o :: inbox) s))
     = active_connections s.
Proof.
  unfold ends_session. destruct o as [data|e].
  - destruct (json_loads data) as [v|e] eqn:Hloads.
    + intros Hv. unfold iteration, handle_message. step_run.
      rewrite Hloads. step_run.
      destruct v; try discriminate; split; try reflexivity; left; reflexivity.
    + intros He. apply negb_true_iff in He.
      unfold iteration, handle_message. step_run. rewrite Hloads. step_run.
      rewrite He. step_run.
      destruct (is_WebSocketDisconnect e) eqn:Hd; step_run.
      * split; [left|]; reflexivity.
      * destruct (is_Exception e) eqn:Hx; step_run.
        -- split; [left|]; reflexivity.
        -- split; [right; exists e; split; [reflexivity | exact Hx] | reflexivity].
  - intros _. unfold iteration. step_run.
    destruct (is_WebSocketDisconnect e) eqn:Hd; step_run.
    + split; [left|]; reflexivity.
    + destruct (is_Exception e) eqn:Hx; step_run.
      * split; [left|]; reflexivity.
      * split; [right; exists e; split; [reflexivity | exact Hx] | reflexivity].
Qed.

(** The loop over a script: it is still waiting for a message when no
    event of the script ends the session, and it is over, by [break] or by
    an exception that is no [Exception], when one does. *)
Lemma message_loop_over_script inbox :
  forall fuel s,
    length inbox < fuel ->
    let r := run device (while_True fuel (iteration websocket device_id)) inbox s in
    active_connections (globals r) = active_connections s
    /\ if existsb ends_session inbox
       then ended r = Finished tt
            \/ exists e, ended r = Failed e /\ is_Exception e = false
       else ended r = Blocked (receive_text websocket).
Proof.
  induction inbox as [|o inbox IH]; intros fuel s Hfuel;
    (destruct fuel as [|fuel]; [inversion Hfuel|]).
  - split; reflexivity.
  - cbn zeta. unfold run. cbn [while_True bind Monad_task].
    rewrite run_from_bind. cbn zeta.
    fold (run device (iteration websocket device_id) (o :: inbox) s).
    cbn [existsb].
    destruct (ends_session o) eqn:Ho.
    + destruct (iteration_on_fatal_event o inbox s Ho) as [[Hend | [e [Hend He]]] Hconn];
        rewrite Hend; cbn [orb].
      * split; [exact Hconn | left; reflexivity].
      * split; [exact Hconn | right; exists e; split; [reflexivity | exact He]].
    + destruct (iteration_on_harmless_event o inbox s Ho) as [Hend [Hworld Hconn]].
      rewrite Hend, Hworld. cbn [orb].
      assert (Hlen : length inbox < fuel) by (simpl in Hfuel; lia).
      specialize (IH fuel
        (globals (run device (iteration websocket device_id) (o :: inbox) s))
        Hlen).
      cbn zeta in IH. destruct IH as [IHconn IHend].
      rewrite (run_from_prefix device _
                 (calls (run device (iteration websocket device_id) (o :: inbox) s))).
      cbn [ended globals].
      split; [now rewrite IHconn | exact IHend].
Qed.

Lemma run_clean_up (W : Type) (env : environment W) (A : Type)
  (f : unit -> task A) done w s :
  run_from env (task_bind (clean_up device_id) f) done w s
  = run_from env (f tt) done w
      (with_record (INFO, "Device " ++ device_id ++ " connection closed")
         (with_connections (dict_remove device_id (active_connections s)) s)).
Proof.
  unfold clean_up, remove_connection. step_run.
  destruct (dict_contains device_id (active_connections s)) eqn:E; step_run.
  - unfold connections_delitem. step_run. rewrite E. reflexivity.
  - rewrite (dict_remove_not_contained _ _ E). now destruct s.
Qed.

(** A session over a script (the connection is accepted, the channel takes
    the welcome message, the device sends the events of the script and
    then stays silent): while no event ends the session, the handler is
    waiting for the next message and the device is registered; once an
    event does, the handler is over and the device is no longer
    registered. *)
Lemma session_over_script inbox fuel s :
  length inbox < fuel ->
  let r := run device (websocket_endpoint fuel websocket device_id) inbox s in
  if existsb ends_session inbox
  then (ended r = Finished tt
        \/ exists e, ended r = Failed e /\ is_Exception e = false)
       /\ lookup device_id (globals r) = None
  else ended r = Blocked (receive_text websocket)
       /\ lookup device_id (globals r) = Some websocket.
Proof.
  intros Hfuel. cbn zeta. unfold websocket_endpoint, run.
  cbn -[append json_dumps json_loads format dict_contains dict_remove
        iteration while_True clean_up].
  rewrite run_from_try_finally, run_from_try_except, run_from_prefix.
  cbn zeta. cbn [ended calls world globals].
  match goal with
  | |- context [run device (while_True fuel _) inbox ?s1] =>
      destruct (@message_loop_over_script inbox fuel s1 Hfuel) as [Hconn Hend];
      set (r0 := run device (while_True fuel (iteration websocket device_id))
                   inbox s1) in *
  end.
  clearbody r0.
  destruct (existsb ends_session inbox).
  - destruct Hend as [Hend | [e [Hend He]]]; rewrite Hend;
      cbn -[append clean_up run_from dict_remove].
    + rewrite run_clean_up. cbn [run_from ended globals].
      split; [left; reflexivity | apply dict_get_remove_same].
    + rewrite He. cbn -[append clean_up run_from dict_remove].
      rewrite run_clean_up. cbn [run_from ended globals].
      split; [right; exists e; split; [reflexivity | exact He]
             | apply dict_get_remove_same].
  - rewrite Hend. cbn -[append clean_up run_from dict_remove].
    split; [reflexivity|].
    unfold lookup. rewrite Hconn.
    apply dict_get_setitem_same.
Qed.
End MessageLoop.

Lemma untyped_message_is_response_witness :
  run device (handle_message "pi-1" "{}") [] (initial t0)
  = mk_run (Finished tt) [] []
      (with_record (INFO, "Device pi-1 response: ")
         (with_record (INFO, "Received message from device pi-1: {}")
            (initial t0))).
Proof.
  apply (@untyped_message_is_response reference_runtime _ device []
           (initial t0) "pi-1" "{}" []).
  - reflexivity.
  - reflexivity.
Defined.

(** The scenario of the design: the device sends the text hello world; the
    session logs it as plain text and goes on to the next read, where it
    waits, still registered. *)
Example plain_text_keeps_session :
  run device (websocket_endpoint 2 1 "pi-1") [Value "hello world"] (initial t0)
  = mk_run (Blocked (receive_text 1))
      [ accept 1;
        send_text 1
          (json_dumps
             (PyDict [ ("type", PyStr "connected");
                       ("message", PyStr "Device pi-1 connected successfully");
                       ("device_id", PyStr "pi-1") ]));
        receive_text 1;
        receive_text 1 ]
      []
      (mk_state [("pi-1", 1)]
         [ (INFO, "Device pi-1 connected");
           (INFO, "Received plain text from device pi-1: hello world") ]
         t0).
Proof. reflexivity. Qed.

(** C2 fails on the code at the text 42, which is valid JSON but not an
    object.  [json.loads] returns the int 42, [message.get] raises
    [AttributeError], the catch-all clause of the iteration logs it and
    leaves the loop, and the [finally] block deregisters the device: the
    handler returns after this one message, although the channel neither
    disconnected nor failed. *)
Theorem non_object_payload_ends_session :
  json_loads "42" = Value (PyInt 42)
  /\ run device (websocket_endpoint 2 1 "pi-1") [Value "42"] (initial t0)
     = mk_run (Finished tt)
         [ accept 1;
           send_text 1
             (json_dumps
                (PyDict [ ("type", PyStr "connected");
                          ("message", PyStr "Device pi-1 connected successfully");
                          ("device_id", PyStr "pi-1") ]));
           receive_text 1 ]
         []
         (mk_state []
            [ (INFO, "Device pi-1 connected");
              (INFO, "Received message from device pi-1: 42");
              (ERROR, "Error handling message from device pi-1: "
                      ++ "'int' object has no attribute 'get'");
              (INFO, "Device pi-1 connection closed") ]
            t0).
Proof. split; reflexivity. Qed.

(** C1, as the code has it: after [register(id, s1)] and then
    [register(id, s2)], [lookup(id)] returns [s2]; the cleanup of the
    terminating session [s1] deletes the mapping, as the cleanup of [s2]
    does, and a lookup afterwards finds nothing. *)
Theorem superseded_session_cleanup_removes_mapping (s : state)
  (device_id : string) (s1 s2 : WebSocket) :
  lookup device_id
    (exec (register device_id s1 ;; register device_id s2) s)
  = Some s2
  /\ lookup device_id
       (exec (deregister device_id s1)
          (exec (register device_id s1 ;; register device_id s2) s))
     = None
  /\ lookup device_id
       (exec (deregister device_id s2)
          (exec (register device_id s1 ;; register device_id s2) s))
     = None.
Proof.
  split; [|split; apply lookup_deregister].
  erewrite exec_seq by reflexivity.
  rewrite exec_register. apply dict_get_setitem_same.
Qed.

(** C1 fails on the code.  At the level of the registry: session 1 and then
    session 2 register as pi-1, and the cleanup of session 1 leaves no
    mapping for pi-1.  At the level of the handlers: the session of
    WebSocket 1 is waiting for a message when the device reconnects on
    WebSocket 2; WebSocket 1 then reports the disconnect, its handler
    returns, and the entry of WebSocket 2 is gone. *)
Lemma superseded_session_cleanup_counterexample :
  lookup "pi-1"
    (exec (register "pi-1" 1 ;; register "pi-1" 2) (initial t0))
  = Some 2
  /\ lookup "pi-1"
       (exec (deregister "pi-1" 1)
          (exec (register "pi-1" 1 ;; register "pi-1" 2) (initial t0)))
     <> Some 2
  /\ lookup "pi-1" (connects 2 "pi-1" (connects 1 "pi-1" (initial t0)))
     = Some 2
  /\ ended
       (run (closing_after (connects 2 "pi-1")
               (mk_exn WebSocketDisconnect "1000"))
          (websocket_endpoint 1 1 "pi-1") tt (initial t0))
     = Finished tt
  /\ lookup "pi-1"
       (globals
          (run (closing_after (connects 2 "pi-1")
                  (mk_exn WebSocketDisconnect "1000"))
             (websocket_endpoint 1 1 "pi-1") tt (initial t0)))
     <> Some 2.
Proof.
  repeat split; try reflexivity; vm_compute; discriminate.
Qed.

(** ** More on the dispatcher *)

Section DispatcherCases.
Context {rt : Runtime}.
Variable W : Type.
Variable env : environment W.

Ltac step_run :=
  unfold run; cbn -[append json_dumps dict_contains dict_remove].

(** Every run of the dispatcher, by what the registry holds and what the
    environment answers to the write. *)
Lemma send_command_run (w : W) (s : state) (request : SendCommandRequest.t) :
  let device_id := SendCommandRequest.device_id request in
  let cmd := SendCommandRequest.cmd request in
  let payload :=
    json_dumps (PyDict [("cmd", PyStr cmd); ("timestamp", PyFloat (clock s))]) in
  let s1 :=
    with_record
      (INFO, "Received command for device " ++ device_id ++ ": " ++ cmd) s in
  run env (send_command request) w s
  = match lookup device_id s with
    | None =>
        mk_run
          (Finished
             (SendCommandResponse.mk false
                ("Device " ++ device_id ++ " is not connected") device_id))
          [] w
          (with_record (WARNING, "Device " ++ device_id ++ " is not connected")
             s1)
    | Some websocket =>
        match env (send_text websocket payload) w s1 with
        | None =>
            mk_run (Blocked (send_text websocket payload))
              [send_text websocket payload] w s1
        | Some (Value _, w', s') =>
            mk_run
              (Finished
                 (SendCommandResponse.mk true
                    ("Command '" ++ cmd ++ "' sent to device " ++ device_id)
                    device_id))
              [send_text websocket payload] w'
              (with_record
                 (INFO, "Command sent to device " ++ device_id ++ ": " ++ cmd)
                 s')
        | Some (Raised e, w', s') =>
            if is_Exception e
            then
              mk_run
                (Finished
                   (SendCommandResponse.mk false
                      ("Error sending command: " ++ exn_str e) device_id))
                [send_text websocket payload] w'
                (with_connections
                   (dict_remove device_id (active_connections s'))
                   (with_record
                      (ERROR, "Error sending command to device " ++ device_id
                              ++ ": " ++ exn_str e) s'))
            else mk_run (Failed e) [send_text websocket payload] w' s'
        end
    end.
Proof.
  intros device_id cmd payload s1. unfold lookup.
  destruct (dict_get device_id (active_connections s)) as [websocket|] eqn:H.
  - destruct (env (send_text websocket payload) w s1) as [[[[u|e] w'] s']|] eqn:Hsend.
    + unfold send_command. step_run. unfold dict_contains.
      fold device_id. rewrite H. step_run. rewrite H. step_run.
      fold cmd. fold payload. fold s1. rewrite Hsend. reflexivity.
    + destruct (is_Exception e) eqn:He.
      * apply dispatch_after_failed_write; assumption.
      * unfold send_command. step_run. unfold dict_contains.
        fold device_id. rewrite H. step_run. rewrite H. step_run.
        fold cmd. fold payload. fold s1. rewrite Hsend. step_run.
        rewrite He. reflexivity.
    + unfold send_command. step_run. unfold dict_contains.
      fold device_id. rewrite H. step_run. rewrite H. step_run.
      fold cmd. fold payload. fold s1. rewrite Hsend. reflexivity.
  - unfold send_command. step_run. unfold dict_contains.
    fold device_id. rewrite H. reflexivity.
Qed.

(** X1: whatever the registry holds and whatever the channel does, the
    dispatcher lets no [Exception] out to its caller: an exception that
    leaves it is one that [except Exception] does not catch.  It has no
    loop to be cut off either. *)
Theorem dispatch_never_raises_exception (w : W) (s : state)
  (request : SendCommandRequest.t) :
  match ended (run env (send_command request) w s) with
  | Failed e => is_Exception e = false
  | Cut => False
  | Finished _ | Blocked _ => True
  end.
Proof.
  rewrite send_command_run. cbn zeta.
  destruct (lookup (SendCommandRequest.device_id request) s) as [websocket|];
    [|exact I].
  destruct (env _ w _) as [[[[u|e] w'] s']|]; try exact I.
  destruct (is_Exception e) eqn:He; [exact I | exact He].
Qed.

(** X2: the dispatcher awaits at most once, and what it awaits is the
    write of the command envelope on the WebSocket registered under the
    requested identifier: it never reads, never accepts, and never writes
    to the WebSocket of another device. *)
Theorem dispatch_writes_at_most_once (w : W) (s : state)
  (request : SendCommandRequest.t) :
  let device_id := SendCommandRequest.device_id request in
  let cmd := SendCommandRequest.cmd request in
  let payload :=
    json_dumps (PyDict [("cmd", PyStr cmd); ("timestamp", PyFloat (clock s))]) in
  (lookup device_id s = None
   /\ calls (run env (send_command request) w s) = [])
  \/ exists websocket : WebSocket,
       lookup device_id s = Some websocket
       /\ calls (run env (send_command request) w s)
          = [send_text websocket payload].
Proof.
  cbn zeta. rewrite send_command_run. cbn zeta.
  destruct (lookup (SendCommandRequest.device_id request) s) as [websocket|];
    [right; exists websocket | left; split; reflexivity].
  split; [reflexivity|].
  destruct (env _ w _) as [[[[u|e] w'] s']|]; try reflexivity.
  destruct (is_Exception e); reflexivity.
Qed.

(** X3: every response of the dispatcher names the device of the request,
    and [success=True] is reported only when the identifier was registered
    and the write on its WebSocket completed without raising. *)
Theorem dispatch_success_means_delivered (w : W) (s : state)
  (request : SendCommandRequest.t) (response : SendCommandResponse.t) :
  let device_id := SendCommandRequest.device_id request in
  let cmd := SendCommandRequest.cmd request in
  let payload :=
    json_dumps (PyDict [("cmd", PyStr cmd); ("timestamp", PyFloat (clock s))]) in
  let s1 :=
    with_record
      (INFO, "Received command for device " ++ device_id ++ ": " ++ cmd) s in
  ended (run env (send_command request) w s) = Finished response ->
  SendCommandResponse.device_id response = device_id
  /\ (SendCommandResponse.success response = true ->
      exists (websocket : WebSocket) (w' : W) (s' : state),
        lookup device_id s = Some websocket
        /\ env (send_text websocket payload) w s1 = Some (Value tt, w', s')).
Proof.
  cbn zeta. rewrite send_command_run. cbn zeta.
  destruct (lookup (SendCommandRequest.device_id request) s) as [websocket|].
  - destruct (env _ w _) as [[[[u|e] w'] s']|] eqn:Hsend.
    + intros H. injection H as <-. split; [reflexivity|]. intros _.
      exists websocket, w', s'. destruct u. split; [reflexivity | exact Hsend].
    + destruct (is_Exception e); intros H; [|discriminate].
      injection H as <-. split; [reflexivity | discriminate].
    + discriminate.
  - intros H. injection H as <-. split; [reflexivity | discriminate].
Qed.

(** X4: when the write raises something that is no [Exception] (the
    dispatch is cancelled), the dispatcher lets it through and cleans
    nothing up: the registry and the log stay as the write left them. *)
Theorem cancelled_dispatch_keeps_registration (w w' : W) (s s' : state)
  (request : SendCommandRequest.t) (websocket : WebSocket) (e : exn) :
  let device_id := SendCommandRequest.device_id request in
  let cmd := SendCommandRequest.cmd request in
  let payload :=
    json_dumps (PyDict [("cmd", PyStr cmd); ("timestamp", PyFloat (clock s))]) in
  lookup device_id s = Some websocket ->
  env (send_text websocket payload) w
    (with_record
       (INFO, "Received command for device " ++ device_id ++ ": " ++ cmd) s)
  = Some (Raised e, w', s') ->
  is_Exception e = false ->
  run env (send_command request) w s
  = mk_run (Failed e) [send_text websocket payload] w' s'.
Proof.
  intros device_id cmd payload H Hsend He.
  rewrite send_command_run. cbn zeta.
  fold device_id cmd payload. rewrite H, Hsend, He. reflexivity.
Qed.
End DispatcherCases.

Lemma dispatch_success_means_delivered_witness :
  SendCommandResponse.device_id
    (SendCommandResponse.mk true "Command 'reboot' sent to device pi-1" "pi-1")
  = "pi-1"
  /\ (SendCommandResponse.success
        (SendCommandResponse.mk true "Command 'reboot' sent to device pi-1"
           "pi-1")
      = true ->
      exists (websocket : WebSocket) (w' : list (outcome string)) (s' : state),
        lookup "pi-1" (connects 1 "pi-1" (initial t0)) = Some websocket
        /\ device
             (send_text websocket
                (json_dumps
                   (PyDict [("cmd", PyStr "reboot"); ("timestamp", PyFloat t0)])))
             []
             (with_record (INFO, "Received command for device pi-1: reboot")
                (connects 1 "pi-1" (initial t0)))
           = Some (Value tt, w', s')).
Proof.
  apply (@dispatch_success_means_delivered reference_runtime _ device []
           (connects 1 "pi-1" (initial t0))
           (SendCommandRequest.mk "pi-1" "reboot")
           (SendCommandResponse.mk true "Command 'reboot' sent to device pi-1"
              "pi-1")).
  reflexivity.
Defined.

Lemma cancelled_dispatch_keeps_registration_witness :
  run (failing_write_after (fun s => s) (mk_exn CancelledError ""))
    (send_command (SendCommandRequest.mk "pi-1" "reboot")) tt
    (connects 1 "pi-1" (initial t0))
  = mk_run (Failed (mk_exn CancelledError ""))
      [send_text 1
         (json_dumps
            (PyDict [("cmd", PyStr "reboot"); ("timestamp", PyFloat t0)]))]
      tt
      (with_record (INFO, "Received command for device pi-1: reboot")
         (connects 1 "pi-1" (initial t0))).
Proof.
  apply (@cancelled_dispatch_keeps_registration reference_runtime _
           (failing_write_after (fun s => s) (mk_exn CancelledError ""))
           tt tt
           (connects 1 "pi-1" (initial t0))
           (with_record (INFO, "Received command for device pi-1: reboot")
              (connects 1 "pi-1" (initial t0)))
           (SendCommandRequest.mk "pi-1" "reboot") 1
           (mk_exn CancelledError "")).
  - reflexivity.
  - reflexivity.
  - reflexivity.
Defined.

(** ** The credential check *)

Section Route.
Context {rt : Runtime}.
Variable getenv : string -> option string.
Variable W : Type.
Variable env : environment W.

(** X5: a request to [/send] whose [x-api-key] header differs from
    [API_KEY] is answered with the 401 error [Invalid API key] and has no
    effect at all: the body of [send_command] does not run, so nothing is
    logged, nothing is looked up, nothing is written to a device and the
    registry stays as it is, whether or not the device is connected. *)
Theorem unauthenticated_request_has_no_effect (w : W) (s : state)
  (x_api_key : string) (request : SendCommandRequest.t) :
  x_api_key <> API_KEY getenv ->
  verify_api_key getenv x_api_key = HTTPException 401 "Invalid API key"
  /\ run env (send_route getenv x_api_key request) w s
     = mk_run (Finished (HTTPException 401 "Invalid API key")) [] w s.
Proof.
  intros H. apply String.eqb_neq in H.
  unfold send_route, verify_api_key. rewrite H. split; reflexivity.
Qed.

(** X6: a request to [/send] whose header is [API_KEY] passes the check,
    which returns the key, and is served by [send_command]: the route makes
    the awaited calls of the dispatcher, leaves the globals as the
    dispatcher leaves them, and answers with the dispatcher's response. *)
Theorem authenticated_request_is_dispatched (w : W) (s : state)
  (request : SendCommandRequest.t) :
  verify_api_key getenv (API_KEY getenv) = Passed (API_KEY getenv)
  /\ run env (send_route getenv (API_KEY getenv) request) w s
     = mk_run
         match ended (run env (send_command request) w s) with
         | Finished response => Finished (Passed response)
         | Failed e => Failed e
         | Blocked c => Blocked c
         | Cut => Cut
         end
         (calls (run env (send_command request) w s))
         (world (run env (send_command request) w s))
         (globals (run env (send_command request) w s)).
Proof.
  unfold send_route, verify_api_key. rewrite String.eqb_refl.
  split; [reflexivity|].
  unfold run. cbn [negb bind Monad_task ret]. rewrite run_from_bind. cbn zeta.
  destruct (ended (run_from env (send_command request) [] w s)); reflexivity.
Qed.
End Route.

Lemma unauthenticated_request_has_no_effect_witness :
  verify_api_key (fun _ => None) "guess" = HTTPException 401 "Invalid API key"
  /\ run device
       (send_route (fun _ => None) "guess"
          (SendCommandRequest.mk "pi-1" "reboot"))
       [] (connects 1 "pi-1" (initial t0))
     = mk_run (Finished (HTTPException 401 "Invalid API key")) [] []
         (connects 1 "pi-1" (initial t0)).
Proof.
  apply (@unauthenticated_request_has_no_effect reference_runtime
           (fun _ => None) _ device [] (connects 1 "pi-1" (initial t0))
           "guess" (SendCommandRequest.mk "pi-1" "reboot")).
  discriminate.
Defined.

(** ** What the handlers await *)

Lemma await_free_run (W : Type) (env : environment W) (A : Type) (t : task A) :
  await_free t ->
  forall done w s,
    calls (run_from env t done w s) = done
    /\ world (run_from env t done w s) = w
    /\ forall c, ended (run_from env t done w s) <> Blocked c.
Proof.
  induction t as [a|e| |k IH|s' k IH|c k IH]; simpl; intros Hfree done w s;
    try (repeat split; discriminate || reflexivity).
  - now apply IH.
  - now apply IH.
  - contradiction.
Qed.

Lemma await_free_bind (A B : Type) (t : task A) (f : A -> task B) :
  await_free t -> (forall a, await_free (f a)) -> await_free (task_bind t f).
Proof.
  intros Ht Hf.
  induction t as [a|e| |k IH|s' k IH|c k IH]; simpl in *; auto.
Qed.

Lemma await_free_try_except (A : Type) (t : task A)
  (h : exn -> option (task A)) :
  await_free t ->
  (forall e t', h e = Some t' -> await_free t') ->
  await_free (try_except t h).
Proof.
  intros Ht Hh.
  induction t as [a|e| |k IH|s' k IH|c k IH]; simpl in *; auto.
  destruct (h e) as [t'|] eqn:E; [now apply (Hh e) | exact I].
Qed.

Lemma await_free_eval (A : Type) (o : outcome A) : await_free (eval o).
Proof. now destruct o. Qed.

Lemma await_free_logger l msg : await_free (logger l msg).
Proof. intros s. exact I. Qed.

Lemma await_free_remove_connection device_id :
  await_free (remove_connection device_id).
Proof.
  intros s. simpl.
  destruct (dict_contains device_id (active_connections s)); [|exact I].
  intros s'. simpl.
  now destruct (dict_contains device_id (active_connections s')).
Qed.

Lemma calls_try_finally (W : Type) (env : environment W) (A : Type)
  (t : task A) (fin : task unit) done w s :
  await_free fin ->
  calls (run_from env (try_finally t fin) done w s)
  = calls (run_from env t done w s).
Proof.
  intros Hfin. rewrite run_from_try_finally. cbn zeta.
  destruct (ended (run_from env t done w s)); try reflexivity;
    cbn [bind Monad_task];
    apply await_free_run, await_free_bind; try exact Hfin; intros _; exact I.
Qed.

Lemma calls_try_except (W : Type) (env : environment W) (A : Type)
  (t : task A) (h : exn -> option (task A)) done w s :
  (forall e t', h e = Some t' -> await_free t') ->
  calls (run_from env (try_except t h) done w s)
  = calls (run_from env t done w s).
Proof.
  intros Hh. rewrite run_from_try_except. cbn zeta.
  destruct (ended (run_from env t done w s)) as [a|e|c|]; try reflexivity.
  destruct (h e) as [t'|] eqn:E; [|reflexivity].
  now apply await_free_run, (Hh e).
Qed.

Section Awaits.
Context {rt : Runtime}.

Lemma await_free_handle_message device_id data :
  await_free (handle_message device_id data).
Proof.
  unfold handle_message. apply await_free_try_except.
  - cbn [bind Monad_task ret].
    apply await_free_bind; [apply await_free_eval|]. intros message.
    apply await_free_bind; [apply await_free_logger|]. intros _.
    apply await_free_bind; [apply await_free_eval|]. intros msg_type.
    repeat match goal with
           | |- await_free (if ?b then _ else _) => destruct b
           | |- await_free (task_bind _ _) =>
               apply await_free_bind; [apply await_free_eval | intros ?]
           | |- await_free (logger _ _) => apply await_free_logger
           | |- await_free (Return _) => exact I
           end.
  - intros e t'. destruct (is_JSONDecodeError e); [|discriminate].
    intros H. injection H as <-. apply await_free_logger.
Qed.

Lemma await_free_clean_up device_id : await_free (clean_up device_id).
Proof.
  unfold clean_up. cbn [bind Monad_task].
  apply await_free_bind; [apply await_free_remove_connection|].
  intros _. apply await_free_logger.
Qed.

(** X7: handling an inbound message is local to the process: whatever the
    text and whatever [json.loads] makes of it, the handler awaits nothing
    (it sends no reply to the device), leaves the registry as it is, and
    lets no [JSONDecodeError] out. *)
Theorem handle_message_is_local (W : Type) (env : environment W) (w : W)
  (s : state) (device_id data : string) :
  calls (run env (handle_message device_id data) w s) = []
  /\ world (run env (handle_message device_id data) w s) = w
  /\ active_connections (globals (run env (handle_message device_id data) w s))
     = active_connections s
  /\ match ended (run env (handle_message device_id data) w s) with
     | Finished _ => True
     | Failed e => is_JSONDecodeError e = false
     | Blocked _ | Cut => False
     end.
Proof.
  destruct (@await_free_run _ env _ _
              (await_free_handle_message device_id data) [] w s) as [Hcalls [Hworld _]].
  split; [exact Hcalls | split; [exact Hworld|]].
  unfold handle_message, run.
  cbn -[append json_loads format].
  destruct (json_loads data) as [v|e]; cbn -[append format].
  - destruct v; cbn -[append format]; try (split; reflexivity).
    destruct (dict_get "type" items) as [msg_type|]; cbn -[append format];
      [|split; [reflexivity | exact I]].
    destruct (eq_str msg_type "response"); cbn -[append format];
      [split; [reflexivity | exact I]|].
    destruct (eq_str msg_type "status"); cbn -[append format];
      [split; [reflexivity | exact I]|].
    destruct (eq_str msg_type "error"); cbn -[append format];
      split; reflexivity || exact I.
  - destruct (is_JSONDecodeError e) eqn:He; cbn -[append format];
      split; reflexivity || exact I || exact He.
Qed.

Lemma calls_iteration (W : Type) (env : environment W) websocket device_id
  done w s :
  calls (run_from env (iteration websocket device_id) done w s)
  = (done ++ [receive_text websocket])%list.
Proof.
  unfold iteration. rewrite calls_try_except.
  - cbn -[handle_message].
    destruct (env (receive_text websocket) w s) as [[[o w'] s']|];
      [|reflexivity].
    apply await_free_run, await_free_bind; [apply await_free_eval|].
    intros data. apply await_free_bind; [apply await_free_handle_message|].
    intros _. exact I.
  - intros e t'.
    destruct (is_WebSocketDisconnect e);
      [|destruct (is_Exception e); [|discriminate]];
      intros H; injection H as <-; intros s0; exact I.
Qed.

Lemma calls_message_loop (W : Type) (env : environment W) websocket device_id
  fuel :
  forall done w s,
  exists n : nat,
    calls (run_from env (while_True fuel (iteration websocket device_id))
             done w s)
    = (done ++ repeat (receive_text websocket) n)%list.
Proof.
  induction fuel as [|fuel IH]; intros done w s.
  - exists 0. simpl. now rewrite app_nil_r.
  - cbn [while_True bind Monad_task]. rewrite run_from_bind. cbn zeta.
    pose proof (calls_iteration env websocket device_id done w s) as Hcalls.
    destruct (ended (run_from env (iteration websocket device_id) done w s))
      as [[|]|e|c|]; cbn [calls run_from].
    + destruct (IH (calls (run_from env (iteration websocket device_id)
                             done w s))
                  (world (run_from env (iteration websocket device_id)
                             done w s))
                  (globals (run_from env (iteration websocket device_id)
                             done w s))) as [n Hn].
      exists (S n). rewrite Hn, Hcalls. simpl. now rewrite <- app_assoc.
    + exists 1. exact Hcalls.
    + exists 1. exact Hcalls.
    + exists 1. exact Hcalls.
    + exists 1. exact Hcalls.
Qed.

(** X8: whatever the device and the other coroutines do, a session awaits
    the handshake, then writes the welcome message once, then only reads:
    no inbound message and no error makes the session write to its
    channel again, and it never touches the channel of another session. *)
Theorem session_writes_only_welcome (W : Type) (env : environment W)
  (fuel : nat) (w : W) (s : state) (websocket : WebSocket)
  (device_id : string) :
  calls (run env (websocket_endpoint fuel websocket device_id) w s)
  = [accept websocket]
  \/ exists n : nat,
       calls (run env (websocket_endpoint fuel websocket device_id) w s)
       = accept websocket
         :: send_text websocket
              (json_dumps
                 (PyDict [ ("type", PyStr "connected");
                           ("message",
                              PyStr ("Device " ++ device_id
                                     ++ " connected successfully"));
                           ("device_id", PyStr device_id) ]))
         :: repeat (receive_text websocket) n.
Proof.
  unfold websocket_endpoint, run.
  cbn -[append json_dumps iteration while_True clean_up try_finally try_except].
  destruct (env (accept websocket) w s) as [[[[u|e] w1] s1]|];
    [|left; reflexivity|left; reflexivity].
  right.
  cbn -[append json_dumps iteration while_True clean_up try_finally try_except].
  rewrite calls_try_finally by apply await_free_clean_up.
  rewrite calls_try_except.
  - cbn -[append json_dumps iteration while_True].
    match goal with
    | |- context [env (send_text websocket ?p) w1 ?s2] =>
        destruct (env (send_text websocket p) w1 s2) as [[[[u'|e] w2] s3]|]
    end.
    + cbn [eval task_bind].
      match goal with
      | |- context [run_from env _ ?done w2 s3] =>
          destruct (calls_message_loop env websocket device_id fuel done w2 s3)
            as [n Hn]
      end.
      exists n. rewrite Hn. reflexivity.
    + exists 0. reflexivity.
    + exists 0. reflexivity.
  - intros e t'. destruct (is_Exception e); [|discriminate].
    intros H. injection H as <-. apply await_free_logger.
Qed.
End Awaits.

(** ** How a session ends *)

Section SessionExits.
Context {rt : Runtime}.
Variable W : Type.
Variable env : environment W.

Ltac step_run :=
  unfold run;
  cbn -[append json_dumps json_loads format dict_contains dict_remove].

(** X9: when the handshake raises, the exception leaves the handler, which
    has done nothing: the device is not registered, nothing is logged, and
    no cleanup runs, so that a registration an earlier session holds under
    the same identifier survives. *)
Theorem handshake_failure_registers_nothing (fuel : nat) (w w' : W)
  (s s' : state) (websocket : WebSocket) (device_id : string) (e : exn) :
  env (accept websocket) w s = Some (Raised e, w', s') ->
  run env (websocket_endpoint fuel websocket device_id) w s
  = mk_run (Failed e) [accept websocket] w' s'.
Proof.
  intros Haccept. unfold websocket_endpoint. step_run. rewrite Haccept.
  reflexivity.
Qed.

(** X10: when the write of the welcome message raises an [Exception], the
    handler logs the error, deregisters the device it had just registered
    and returns normally, without ever reading from the channel. *)
Theorem welcome_failure_deregisters (fuel : nat) (w w1 w2 : W)
  (s s1 s2 : state) (websocket : WebSocket) (device_id : string) (e : exn) :
  let welcome :=
    json_dumps
      (PyDict [ ("type", PyStr "connected");
                ("message",
                   PyStr ("Device " ++ device_id ++ " connected successfully"));
                ("device_id", PyStr device_id) ]) in
  env (accept websocket) w s = Some (Value tt, w1, s1) ->
  env (send_text websocket welcome) w1
    (with_connections
       (dict_setitem device_id websocket (active_connections s1))
       (with_record (INFO, "Device " ++ device_id ++ " connected") s1))
  = Some (Raised e, w2, s2) ->
  is_Exception e = true ->
  run env (websocket_endpoint fuel websocket device_id) w s
  = mk_run (Finished tt) [accept websocket; send_text websocket welcome] w2
      (with_record (INFO, "Device " ++ device_id ++ " connection closed")
         (with_connections (dict_remove device_id (active_connections s2))
            (with_record
               (ERROR, "WebSocket error for device " ++ device_id ++ ": "
                       ++ exn_str e)
               s2))).
Proof.
  intros welcome Haccept Hsend He.
  unfold websocket_endpoint. step_run. rewrite Haccept. step_run.
  fold welcome. rewrite Hsend. step_run. rewrite He. step_run.
  destruct (dict_contains device_id (active_connections s2)) eqn:E; step_run.
  - unfold connections_delitem. step_run. rewrite E. reflexivity.
  - now rewrite (dict_remove_not_contained _ _ E).
Qed.

(** X11: the registration is released on every exit path: once the
    handshake has succeeded, whenever the handler is over, by returning or
    by raising, and whatever happened in between, the registry holds no
    entry for the identifier of the session. *)
Theorem session_releases_registration (fuel : nat) (w w1 : W) (s s1 : state)
  (websocket : WebSocket) (device_id : string) :
  env (accept websocket) w s = Some (Value tt, w1, s1) ->
  over (ended (run env (websocket_endpoint fuel websocket device_id) w s))
  = true ->
  lookup device_id
    (globals (run env (websocket_endpoint fuel websocket device_id) w s))
  = None.
Proof.
  intros Haccept.
  unfold websocket_endpoint, run.
  cbn -[append json_dumps iteration while_True clean_up try_finally try_except].
  rewrite Haccept.
  cbn -[append json_dumps iteration while_True clean_up try_finally try_except].
  rewrite run_from_try_finally. cbn zeta.
  match goal with
  | |- context [run_from env (try_except ?t ?h) ?d ?w0 ?s0] =>
      generalize (run_from env (try_except t h) d w0 s0)
  end.
  intros r0.
  destruct (ended r0) as [[]|e|c|] eqn:Hr0; cbn [bind Monad_task].
  - intros _. rewrite run_clean_up. apply dict_get_remove_same.
  - intros _. rewrite run_clean_up. apply dict_get_remove_same.
  - rewrite Hr0. discriminate.
  - rewrite Hr0. discriminate.
Qed.
End SessionExits.

Lemma handshake_failure_registers_nothing_witness :
  run (refused (mk_exn RuntimeError "handshake"))
    (websocket_endpoint 1 2 "pi-1") tt (connects 1 "pi-1" (initial t0))
  = mk_run (Failed (mk_exn RuntimeError "handshake")) [accept 2] tt
      (connects 1 "pi-1" (initial t0)).
Proof.
  apply (@handshake_failure_registers_nothing reference_runtime unit
           (refused (mk_exn RuntimeError "handshake"))
           1 tt tt (connects 1 "pi-1" (initial t0))
           (connects 1 "pi-1" (initial t0)) 2 "pi-1"
           (mk_exn RuntimeError "handshake")).
  reflexivity.
Defined.

Lemma welcome_failure_deregisters_witness :
  run (failing_write_after (fun s => s) (mk_exn RuntimeError "closed"))
    (websocket_endpoint 1 1 "pi-1") tt (initial t0)
  = mk_run (Finished tt)
      [ accept 1;
        send_text 1
          (json_dumps
             (PyDict [ ("type", PyStr "connected");
                       ("message", PyStr "Device pi-1 connected successfully");
                       ("device_id", PyStr "pi-1") ])) ]
      tt
      (with_record (INFO, "Device pi-1 connection closed")
         (with_connections []
            (with_record (ERROR, "WebSocket error for device pi-1: closed")
               (with_connections [("pi-1", 1)]
                  (with_record (INFO, "Device pi-1 connected") (initial t0)))))).
Proof.
  apply (@welcome_failure_deregisters reference_runtime unit
           (failing_write_after (fun s => s) (mk_exn RuntimeError "closed"))
           1 tt tt tt (initial t0) (initial t0)
           (with_connections [("pi-1", 1)]
              (with_record (INFO, "Device pi-1 connected") (initial t0)))
           1 "pi-1" (mk_exn RuntimeError "closed")).
  - reflexivity.
  - reflexivity.
  - reflexivity.
Defined.

Lemma session_releases_registration_witness :
  lookup "pi-1"
    (globals
       (run (closing_after (connects 2 "pi-1") (mk_exn CancelledError ""))
          (websocket_endpoint 3 1 "pi-1") tt (initial t0)))
  = None.
Proof.
  apply (@session_releases_registration reference_runtime unit
           (closing_after (connects 2 "pi-1") (mk_exn CancelledError ""))
           3 tt tt (initial t0) (initial t0) 1 "pi-1").
  - reflexivity.
  - reflexivity.
Defined.

(** ** Messages with a type *)

Section TypedMessages.
Context {rt : Runtime}.
Variable W : Type.
Variable env : environment W.

Ltac step_run :=
  unfold run; cbn -[append json_loads format String.eqb].

(** X12: a JSON object whose type is [status] is logged at level INFO with
    its status field, and one whose type is [error] is logged at level
    ERROR with its error field; a missing field is logged as the empty
    string.  Neither ends the loop nor raises. *)
Theorem status_and_error_messages_are_logged (w : W) (s : state)
  (device_id data : string) (d : dict value) :
  json_loads data = Value (PyDict d) ->
  (dict_get "type" d = Some (PyStr "status") ->
   run env (handle_message device_id data) w s
   = mk_run (Finished tt) [] w
       (with_record
          (INFO, "Device " ++ device_id ++ " status: "
                 ++ format (match dict_get "status" d with
                            | Some v => v
                            | None => PyStr ""
                            end))
          (with_record
             (INFO, "Received message from device " ++ device_id ++ ": "
                    ++ format (PyDict d))
             s)))
  /\ (dict_get "type" d = Some (PyStr "error") ->
      run env (handle_message device_id data) w s
      = mk_run (Finished tt) [] w
          (with_record
             (ERROR, "Device " ++ device_id ++ " error: "
                     ++ format (match dict_get "error" d with
                                | Some v => v
                                | None => PyStr ""
                                end))
             (with_record
                (INFO, "Received message from device " ++ device_id ++ ": "
                       ++ format (PyDict d))
                s))).
Proof.
  intros Hloads. split; intros Htype; unfold handle_message; step_run;
    rewrite Hloads; step_run; rewrite Htype; reflexivity.
Qed.

(** X13: a JSON object whose type is none of [response], [status] and
    [error], be it another string or no string at all, is accepted and
    leaves no record but that of its receipt. *)
Theorem unknown_type_leaves_only_receipt (w : W) (s : state)
  (device_id data : string) (d : dict value) (msg_type : value) :
  json_loads data = Value (PyDict d) ->
  dict_get "type" d = Some msg_type ->
  eq_str msg_type "response" = false ->
  eq_str msg_type "status" = false ->
  eq_str msg_type "error" = false ->
  run env (handle_message device_id data) w s
  = mk_run (Finished tt) [] w
      (with_record
         (INFO, "Received message from device " ++ device_id ++ ": "
                ++ format (PyDict d))
         s).
Proof.
  intros Hloads Htype H1 H2 H3. unfold handle_message. step_run.
  rewrite Hloads. step_run. rewrite Htype.
  cbn -[append format eq_str]. rewrite H1.
  cbn -[append format eq_str]. rewrite H2.
  cbn -[append format eq_str]. rewrite H3.
  reflexivity.
Qed.
End TypedMessages.

Lemma status_and_error_messages_are_logged_witness :
  run device
    (handle_message "pi-1"
       (json_dumps (PyDict [("type", PyStr "status"); ("status", PyStr "idle")])))
    [] (initial t0)
  = mk_run (Finished tt) [] []
      (with_record (INFO, "Device pi-1 status: idle")
         (with_record
            (INFO, "Received message from device pi-1: "
                   ++ "{'type': 'status', 'status': 'idle'}")
            (initial t0)))
  /\ run device
       (handle_message "pi-1"
          (json_dumps (PyDict [("type", PyStr "error"); ("code", PyInt 7)])))
       [] (initial t0)
     = mk_run (Finished tt) [] []
         (with_record (ERROR, "Device pi-1 error: ")
            (with_record
               (INFO, "Received message from device pi-1: "
                      ++ "{'type': 'error', 'code': 7}")
               (initial t0))).
Proof.
  split.
  - apply (@status_and_error_messages_are_logged reference_runtime _ device []
             (initial t0) "pi-1"
             (json_dumps
                (PyDict [("type", PyStr "status"); ("status", PyStr "idle")]))
             [("type", PyStr "status"); ("status", PyStr "idle")]);
      reflexivity.
  - apply (@status_and_error_messages_are_logged reference_runtime _ device []
             (initial t0) "pi-1"
             (json_dumps (PyDict [("type", PyStr "error"); ("code", PyInt 7)]))
             [("type", PyStr "error"); ("code", PyInt 7)]);
      reflexivity.
Defined.

Lemma unknown_type_leaves_only_receipt_witness :
  run device
    (handle_message "pi-1"
       (json_dumps (PyDict [("type", PyInt 3); ("data", PyStr "x")])))
    [] (initial t0)
  = mk_run (Finished tt) [] []
      (with_record
         (INFO, "Received message from device pi-1: "
                ++ "{'type': 3, 'data': 'x'}")
         (initial t0)).
Proof.
  apply (@unknown_type_leaves_only_receipt reference_runtime _ device []
           (initial t0) "pi-1"
           (json_dumps (PyDict [("type", PyInt 3); ("data", PyStr "x")]))
           [("type", PyInt 3); ("data", PyStr "x")] (PyInt 3));
    reflexivity.
Defined.

(** ** Sessions, dispatches and the status route together *)

Lemma connects_eq {rt : Runtime} (websocket : WebSocket) (device_id : string)
  (s : state) :
  connects websocket device_id s
  = with_connections
      (dict_setitem device_id websocket (active_connections s))
      (with_record (INFO, "Device " ++ device_id ++ " connected") s).
Proof. reflexivity. Qed.

Lemma dict_keys_remove (V : Type) (d : dict V) (k : string) :
  dict_keys (dict_remove k d)
  = filter (fun k' => negb (String.eqb k k')) (dict_keys d).
Proof.
  unfold dict_keys, dict_remove.
  induction d as [|[k' v] d IH]; simpl; [reflexivity|].
  destruct (String.eqb k k'); simpl; now rewrite IH.
Qed.

Lemma exec_clean_up {rt : Runtime} (device_id : string) (s : state) :
  exec (clean_up device_id) s
  = with_record (INFO, "Device " ++ device_id ++ " connection closed")
      (with_connections (dict_remove device_id (active_connections s)) s).
Proof.
  unfold exec, run, clean_up, remove_connection.
  cbn -[append dict_contains dict_remove].
  destruct (dict_contains device_id (active_connections s)) eqn:E;
    cbn -[append dict_contains dict_remove].
  - unfold connections_delitem. cbn -[append dict_contains dict_remove].
    rewrite E. reflexivity.
  - rewrite (dict_remove_not_contained _ _ E). now destruct s.
Qed.

Section Together.
Context {rt : Runtime}.

(** X14: a session ends exactly when an event ends it.  Over any script of
    inbound events (and with fuel for them), the handler is still waiting
    for a message, with the device registered on its WebSocket, when no
    event of the script is a failed read, a text that decodes to something
    other than an object, or a text on which [json.loads] raises something
    other than [JSONDecodeError]; and the handler is over, with the device
    deregistered, as soon as one is. *)
Theorem session_ends_exactly_on_fatal_event (websocket : WebSocket)
  (device_id : string) (inbox : list (outcome string)) (fuel : nat)
  (s : state) :
  length inbox < fuel ->
  (existsb ends_session inbox = false ->
   ended (run device (websocket_endpoint fuel websocket device_id) inbox s)
   = Blocked (receive_text websocket)
   /\ lookup device_id
        (globals (run device (websocket_endpoint fuel websocket device_id)
                    inbox s))
      = Some websocket)
  /\ (existsb ends_session inbox = true ->
      over (ended (run device (websocket_endpoint fuel websocket device_id)
                     inbox s))
      = true
      /\ lookup device_id
           (globals (run device (websocket_endpoint fuel websocket device_id)
                       inbox s))
         = None).
Proof.
  intros Hfuel.
  pose proof (@session_over_script rt websocket device_id inbox fuel s Hfuel)
    as H.
  cbn zeta in H.
  destruct (existsb ends_session inbox); split; try discriminate; intros _.
  - destruct H as [[H | [e [H _]]] Hlookup]; rewrite H; split;
      reflexivity || exact Hlookup.
  - exact H.
Qed.


(** X16: once a session has ended, a dispatch to its identifier finds no
    device: it reports that the device is not connected and awaits
    nothing. *)
Theorem dispatch_after_session_end (W : Type) (env : environment W) (w : W)
  (websocket : WebSocket) (device_id cmd : string)
  (inbox : list (outcome string)) (fuel : nat) (s : state) :
  length inbox < fuel ->
  existsb ends_session inbox = true ->
  ended
    (run env (send_command (SendCommandRequest.mk device_id cmd)) w
       (globals (run device (websocket_endpoint fuel websocket device_id)
                   inbox s)))
  = Finished
      (SendCommandResponse.mk false
         ("Device " ++ device_id ++ " is not connected") device_id)
  /\ calls
       (run env (send_command (SendCommandRequest.mk device_id cmd)) w
          (globals (run device (websocket_endpoint fuel websocket device_id)
                      inbox s)))
     = [].
Proof.
  intros Hfuel Hfatal.
  pose proof (@session_over_script rt websocket device_id inbox fuel s Hfuel)
    as H.
  cbn zeta in H. rewrite Hfatal in H. destruct H as [_ Hlookup].
  rewrite send_command_run. cbn zeta.
  cbn [SendCommandRequest.device_id SendCommandRequest.cmd].
  rewrite Hlookup. split; reflexivity.
Qed.

(** X17: the status route after a connection: a device that connects under
    a new identifier is listed last and raises the count by one; a device
    that reconnects under an identifier already registered keeps its place
    in the list and the count stays. *)
Theorem status_after_connect (websocket : WebSocket) (device_id : string)
  (s : state) :
  ending root (connects websocket device_id s)
  = Finished
      (PyDict
         [ ("status", PyStr "online");
           ("active_connections",
              PyInt (Z.of_nat
                       (if dict_contains device_id (active_connections s)
                        then dict_len (active_connections s)
                        else S (dict_len (active_connections s)))));
           ("devices",
              PyList (map PyStr
                        (if dict_contains device_id (active_connections s)
                         then dict_keys (active_connections s)
                         else (dict_keys (active_connections s)
                               ++ [device_id])%list))) ]).
Proof.
  rewrite connects_eq. unfold ending, root, run.
  cbn [run_from ended active_connections with_connections].
  unfold dict_contains, dict_len.
  destruct (dict_get device_id (active_connections s)) eqn:E.
  - rewrite <- !(length_map fst). fold (dict_keys (active_connections s)).
    fold (dict_keys (dict_setitem device_id websocket (active_connections s))).
    rewrite dict_keys_setitem_present by congruence. reflexivity.
  - rewrite <- !(length_map fst). fold (dict_keys (active_connections s)).
    fold (dict_keys (dict_setitem device_id websocket (active_connections s))).
    rewrite dict_keys_setitem_absent by exact E.
    rewrite length_app. cbn [length]. rewrite Nat.add_1_r. reflexivity.
Qed.

(** X18: the status route after the cleanup of a session: the identifier
    of the session is no longer listed, the other devices are listed as
    before and in the same order, and the count is the length of that
    list. *)
Theorem status_after_clean_up (device_id : string) (s : state) :
  ending root (exec (clean_up device_id) s)
  = Finished
      (PyDict
         [ ("status", PyStr "online");
           ("active_connections",
              PyInt (Z.of_nat
                       (length
                          (filter (fun k => negb (String.eqb device_id k))
                             (dict_keys (active_connections s))))));
           ("devices",
              PyList (map PyStr
                        (filter (fun k => negb (String.eqb device_id k))
                           (dict_keys (active_connections s))))) ]).
Proof.
  rewrite exec_clean_up. unfold ending, root, run.
  cbn [run_from ended active_connections with_connections with_record].
  unfold dict_len. rewrite <- (length_map fst).
  fold (dict_keys (dict_remove device_id (active_connections s))).
  rewrite dict_keys_remove. reflexivity.
Qed.
End Together.

Lemma session_ends_exactly_on_fatal_event_witness :
  (existsb ends_session [Value "hello world"; Value "{}"] = false ->
   ended (run device (websocket_endpoint 3 1 "pi-1")
            [Value "hello world"; Value "{}"] (initial t0))
   = Blocked (receive_text 1)
   /\ lookup "pi-1"
        (globals (run device (websocket_endpoint 3 1 "pi-1")
                    [Value "hello world"; Value "{}"] (initial t0)))
      = Some 1)
  /\ (existsb ends_session [Value "hello world"; Value "{}"] = true ->
      over (ended (run device (websocket_endpoint 3 1 "pi-1")
                     [Value "hello world"; Value "{}"] (initial t0)))
      = true
      /\ lookup "pi-1"
           (globals (run device (websocket_endpoint 3 1 "pi-1")
                       [Value "hello world"; Value "{}"] (initial t0)))
         = None).
Proof.
  apply (@session_ends_exactly_on_fatal_event reference_runtime 1 "pi-1"
           [Value "hello world"; Value "{}"] 3 (initial t0)).
  simpl. lia.
Defined.

Lemma dispatch_after_session_end_witness :
  ended
    (run device (send_command (SendCommandRequest.mk "pi-1" "reboot")) []
       (globals (run device (websocket_endpoint 2 1 "pi-1")
                   [Raised (mk_exn WebSocketDisconnect "1000")] (initial t0))))
  = Finished
      (SendCommandResponse.mk false "Device pi-1 is not connected" "pi-1")
  /\ calls
       (run device (send_command (SendCommandRequest.mk "pi-1" "reboot")) []
          (globals (run device (websocket_endpoint 2 1 "pi-1")
                      [Raised (mk_exn WebSocketDisconnect "1000")]
                      (initial t0))))
     = [].
Proof.
  apply (@dispatch_after_session_end reference_runtime _ device [] 1 "pi-1"
           "reboot" [Raised (mk_exn WebSocketDisconnect "1000")] 2 (initial t0)).
  - simpl. lia.
  - reflexivity.
Defined.

(** ** Messages are handled in the order of their arrival *)

Section Order.
Context {rt : Runtime}.
Variable websocket : WebSocket.
Variable device_id : string.

Ltac step_run :=
  unfold run; cbn -[append json_dumps json_loads format dict_contains dict_remove].

Lemma iteration_handles_text data inbox s :
  ends_session (Value data) = false ->
  globals (run device (iteration websocket device_id) (Value data :: inbox) s)
  = exec (handle_message device_id data) s.
Proof.
  unfold ends_session, exec, iteration, handle_message. step_run.
  destruct (json_loads data) as [v|e] eqn:Hloads; step_run.
  - destruct v; try discriminate. intros _. step_run.
    destruct (dict_get "type" items) as [msg_type|]; step_run; [|reflexivity].
    destruct (eq_str msg_type "response"); step_run; [reflexivity|].
    destruct (eq_str msg_type "status"); step_run; [reflexivity|].
    destruct (eq_str msg_type "error"); reflexivity.
  - intros He. apply negb_false_iff in He. rewrite He. reflexivity.
Qed.

Lemma message_loop_handles_texts texts :
  forall fuel s,
    length texts < fuel ->
    existsb ends_session (map (@Value string) texts) = false ->
    globals (run device (while_True fuel (iteration websocket device_id))
               (map (@Value string) texts) s)
    = fold_left (fun st data => exec (handle_message device_id data) st)
        texts s.
Proof.
  induction texts as [|data texts IH]; intros fuel s Hfuel Hharmless;
    (destruct fuel as [|fuel]; [inversion Hfuel|]).
  - reflexivity.
  - cbn [map existsb] in Hharmless. apply orb_false_iff in Hharmless.
    destruct Hharmless as [Hdata Htexts].
    cbn [map fold_left]. unfold run. cbn [while_True bind Monad_task].
    rewrite run_from_bind. cbn zeta.
    fold (run device (iteration websocket device_id)
            (Value data :: map (@Value string) texts) s).
    destruct (iteration_on_harmless_event websocket device_id (Value data)
                (map (@Value string) texts) s Hdata) as [Hend [Hworld _]].
    rewrite Hend, Hworld, (iteration_handles_text _ _ _ Hdata).
    rewrite run_from_prefix. cbn [globals].
    apply IH; [simpl in Hfuel; lia | exact Htexts].
Qed.

(** X19: a session handles the texts it receives one after the other, in
    the order of their arrival: while no text ends the session, the
    globals after the session has read the texts of a script are those
    that handling the first text, then the second, and so on, leaves,
    starting from the globals at the registration of the session. *)
Theorem session_handles_texts_in_order (texts : list string) (fuel : nat)
  (s : state) :
  length texts < fuel ->
  existsb ends_session (map (@Value string) texts) = false ->
  globals (run device (websocket_endpoint fuel websocket device_id)
             (map (@Value string) texts) s)
  = fold_left (fun st data => exec (handle_message device_id data) st)
      texts (connects websocket device_id s).
Proof.
  intros Hfuel Hharmless.
  assert (Hlen : length (map (@Value string) texts) < fuel)
    by (now rewrite length_map).
  rewrite connects_eq.
  rewrite <- (message_loop_handles_texts texts _ Hfuel Hharmless).
  unfold websocket_endpoint, run.
  cbn -[append json_dumps json_loads format dict_contains dict_remove
        iteration while_True clean_up].
  rewrite run_from_try_finally, run_from_try_except, run_from_prefix.
  cbn zeta. cbn [ended calls world globals].
  match goal with
  | |- context [run device (while_True fuel _) _ ?s1] =>
      destruct (@message_loop_over_script rt websocket device_id
                  (map (@Value string) texts) fuel s1 Hlen) as [_ Hend]
  end.
  rewrite Hharmless in Hend. cbn zeta in Hend. rewrite Hend.
  reflexivity.
Qed.
End Order.

Lemma session_handles_texts_in_order_witness :
  globals (run device (websocket_endpoint 3 1 "pi-1")
             (map (@Value string) ["hello world"; "{}"]) (initial t0))
  = fold_left (fun st data => exec (handle_message "pi-1" data) st)
      ["hello world"; "{}"] (connects 1 "pi-1" (initial t0)).
Proof.
  apply (@session_handles_texts_in_order reference_runtime 1 "pi-1"
           ["hello world"; "{}"] 3 (initial t0)).
  - simpl. lia.
  - reflexivity.
Defined.

(** ** A read that raises *)

Section ReadFailure.
Context {rt : Runtime}.
Variable W : Type.
Variable env : environment W.

Ltac step_run :=
  unfold run;
  cbn -[append json_dumps json_loads format dict_contains dict_remove].

(** X20: when the first read of a session raises, the session ends after
    that read and its [finally] block runs in every case: a
    [WebSocketDisconnect] is logged at level INFO and any other [Exception]
    at level ERROR with its text, and the handler returns; something that
    is no [Exception] is not logged and leaves the handler.  In all three
    cases the entry of the identifier is deleted and the closing record is
    logged last. *)
Theorem read_failure_ends_session (fuel : nat) (w w1 w2 w3 : W)
  (s s1 s2 s3 : state) (websocket : WebSocket) (device_id : string)
  (e : exn) :
  let welcome :=
    json_dumps
      (PyDict [ ("type", PyStr "connected");
                ("message",
                   PyStr ("Device " ++ device_id ++ " connected successfully"));
                ("device_id", PyStr device_id) ]) in
  env (accept websocket) w s = Some (Value tt, w1, s1) ->
  env (send_text websocket welcome) w1
    (with_connections
       (dict_setitem device_id websocket (active_connections s1))
       (with_record (INFO, "Device " ++ device_id ++ " connected") s1))
  = Some (Value tt, w2, s2) ->
  env (receive_text websocket) w2 s2 = Some (Raised e, w3, s3) ->
  run env (websocket_endpoint (S fuel) websocket device_id) w s
  = mk_run
      (if is_WebSocketDisconnect e || is_Exception e
       then Finished tt else Failed e)
      [accept websocket; send_text websocket welcome; receive_text websocket]
      w3
      (with_record (INFO, "Device " ++ device_id ++ " connection closed")
         (with_connections (dict_remove device_id (active_connections s3))
            (if is_WebSocketDisconnect e
             then with_record
                    (INFO, "Device " ++ device_id ++ " disconnected") s3
             else if is_Exception e
             then with_record
                    (ERROR, "Error handling message from device " ++ device_id
                            ++ ": " ++ exn_str e) s3
             else s3))).
Proof.
  intros welcome Haccept Hsend Hrecv.
  unfold websocket_endpoint, iteration. step_run.
  rewrite Haccept. step_run. fold welcome. rewrite Hsend. step_run.
  rewrite Hrecv. step_run.
  destruct (is_WebSocketDisconnect e); [|destruct (is_Exception e) eqn:He];
    step_run; try rewrite He; step_run;
    (destruct (dict_contains device_id (active_connections s3)) eqn:E;
     step_run;
     [ unfold connections_delitem; step_run; rewrite E; reflexivity
     | rewrite (dict_remove_not_contained _ _ E);
       unfold with_connections, with_record; destruct s3; reflexivity ]).
Qed.
End ReadFailure.

Lemma read_failure_ends_session_witness :
  run (closing_after (fun s => s) (mk_exn CancelledError ""))
    (websocket_endpoint 1 1 "pi-1") tt (initial t0)
  = mk_run (Failed (mk_exn CancelledError ""))
      [ accept 1;
        send_text 1
          (json_dumps
             (PyDict [ ("type", PyStr "connected");
                       ("message", PyStr "Device pi-1 connected successfully");
                       ("device_id", PyStr "pi-1") ]));
        receive_text 1 ]
      tt
      (with_record (INFO, "Device pi-1 connection closed")
         (with_connections []
            (with_connections [("pi-1", 1)]
               (with_record (INFO, "Device pi-1 connected") (initial t0))))).
Proof.
  apply (@read_failure_ends_session reference_runtime unit
           (closing_after (fun s => s) (mk_exn CancelledError ""))
           0 tt tt tt tt (initial t0) (initial t0)
           (with_connections [("pi-1", 1)]
              (with_record (INFO, "Device pi-1 connected") (initial t0)))
           (with_connections [("pi-1", 1)]
              (with_record (INFO, "Device pi-1 connected") (initial t0)))
           1 "pi-1" (mk_exn CancelledError "")).
  - reflexivity.
  - reflexivity.
  - reflexivity.
Defined.
